(** * Setup verifier and model converter of the Gemma 3 270M browser demo

  A shallow embedding of [setup/check_setup.py] and
  [setup/convert_gemma.py].  Both scripts are straight-line procedures
  over three pieces of state: the file system, the console, and the
  way a Python process ends (normal return, [sys.exit], uncaught
  exception).  The embedding keeps those three explicit:

  - the file system is a finite map from absolute paths to inodes;
  - the console is the list of strings handed to [print];
  - a procedure is a function from the machine state to a result and a
    new machine state.

  Everything the scripts delegate to third-party code (module import,
  the hub identity query, model and tokenizer export) is a field of the
  record [world]; the scripts' own control flow is translated line by
  line. *)

From stdpp Require Import gmap strings list fin_maps pretty.
From Stdlib Require Import ZArith Lia Ascii.
From Stdlib Require Floats.SpecFloat.

Open Scope string_scope.
Open Scope Z_scope.
Open Scope list_scope.

(** ** Paths and the file system *)

Module FS.

(** A path is the list of its components, innermost first, so that the
    parent of a path is its tail.  The root (for an absolute path) and
    the current directory (for a relative one) are the empty list. *)
Abbreviation path := (list string).

Inductive errno := ENOENT | EEXIST | ENOTDIR | EISDIR.

(** File contents: the text a script wrote itself, or a binary object
    an exporter produced, of which only the size is kept. *)
Inductive content := Text (s : string) | Blob (size : N).

Inductive inode := Reg (c : content) | Dir.

(** What [stat] reports for a directory (one block on ext4). *)
Definition dir_st_size : N := 4096%N.

Definition st_size (i : inode) : N :=
  match i with
  | Reg (Text s) => N.of_nat (String.length s)
  | Reg (Blob n) => n
  | Dir => dir_st_size
  end.

Definition is_reg (i : inode) : bool :=
  match i with Reg _ => true | Dir => false end.

Definition is_dir_inode (i : inode) : bool :=
  match i with Reg _ => false | Dir => true end.

(** The root directory always exists and is not stored in the map. *)
Definition inode_at (fs : gmap path inode) (d : path) : option inode :=
  match d with
  | [] => Some Dir
  | _ => fs !! d
  end.

(** Path resolution as the kernel does it: start from the working
    directory [cwd] (an absolute path), walk the components outermost
    first, require every intermediate object to be a directory, and
    let [..] step to the parent. *)
Fixpoint namei (fs : gmap path inode) (cwd : path) (p : path)
  : errno + (path * inode) :=
  match p with
  | [] =>
      match inode_at fs cwd with
      | Some i => inr (cwd, i)
      | None => inl ENOENT
      end
  | c :: q =>
      match namei fs cwd q with
      | inl e => inl e
      | inr (_, Reg _) => inl ENOTDIR
      | inr (d, Dir) =>
          if decide (c = "..") then
            match inode_at fs (tail d) with
            | Some i => inr (tail d, i)
            | None => inl ENOENT
            end
          else
            match fs !! (c :: d) with
            | Some i => inr (c :: d, i)
            | None => inl ENOENT
            end
      end
  end.

(** [mkdir(2)]: the parent must resolve to a directory and the name
    must be free. *)
Definition mkdir (fs : gmap path inode) (cwd : path) (p : path)
  : errno + gmap path inode :=
  match p with
  | [] => inl EEXIST
  | c :: q =>
      match namei fs cwd q with
      | inl e => inl e
      | inr (_, Reg _) => inl ENOTDIR
      | inr (d, Dir) =>
          if decide (c = "..") then inl EEXIST
          else
            match fs !! (c :: d) with
            | Some _ => inl EEXIST
            | None => inr (<[c :: d := Dir]> fs)
            end
      end
  end.

(** [open(p, "w")] followed by writing [c] and closing: the parent must
    resolve to a directory and the name must not be a directory; an
    existing regular file is replaced. *)
Definition write (fs : gmap path inode) (cwd : path) (p : path) (c : content)
  : errno + gmap path inode :=
  match p with
  | [] => inl EISDIR
  | name :: q =>
      match namei fs cwd q with
      | inl e => inl e
      | inr (_, Reg _) => inl ENOTDIR
      | inr (d, Dir) =>
          if decide (name = "..") then inl EISDIR
          else
            match fs !! (name :: d) with
            | Some Dir => inl EISDIR
            | _ => inr (<[name :: d := Reg c]> fs)
            end
      end
  end.

(** Total size of the regular files below the directory [root]
    (an absolute path): what summing [st_size] over [rglob('*')]
    restricted to [is_file()] computes. *)
Definition below (root : path) (k : path) : bool :=
  bool_decide (root `suffix_of` k) && negb (bool_decide (k = root)).

Definition tree_size (fs : gmap path inode) (root : path) : N :=
  map_fold (fun k i acc =>
              if below root k && is_reg i then (acc + st_size i)%N else acc)
           0%N fs.

(** Nothing was removed between [fs] and [fs']: every object is still
    there, and every directory is still a directory. *)
Definition preserved (fs fs' : gmap path inode) : Prop :=
  forall p i, fs !! p = Some i ->
    exists i', fs' !! p = Some i' /\ is_dir_inode i' = is_dir_inode i.

End FS.

(** ** Pure paths, as [pathlib] parses and prints them *)

Module PurePath.
Import FS.

Definition push (cur : string) (acc : path) : path :=
  if decide (cur = "") then acc
  else if decide (cur = ".") then acc
  else cur :: acc.

(** Split at ['/'], dropping empty and ['.'] components. *)
Fixpoint parse (s : string) (cur : string) (acc : path) : path :=
  match s with
  | EmptyString => push cur acc
  | String c s' =>
      if Ascii.eqb c "/"%char then parse s' "" (push cur acc)
      else parse s' (cur +:+ String c "") acc
  end.

(** [Path(s)] for a relative [s]. *)
Definition Path (s : string) : path := parse s "" [].

(** [p / s] *)
Definition join (p : path) (s : string) : path := Path s ++ p.

(** [str(p)] *)
Definition str (p : path) : string :=
  match p with
  | [] => "."
  | _ => String.concat "/" (rev p)
  end.

(** [p.absolute()] printed: the working directory, not normalised,
    in front of the relative path. *)
Definition absolute_str (cwd p : path) : string :=
  match p with
  | [] => "/" +:+ String.concat "/" (rev cwd)
  | _ => String.concat "/" ("" :: rev cwd ++ rev p)
  end.

End PurePath.

Notation "p // s" := (PurePath.join p s) (at level 40, left associativity).

(** ** The Python process: exceptions, console, control flow *)

Module Py.
Import FS.

(** The exception classes the two scripts tell apart.  [OtherError] is
    any other subclass of [Exception] a library may raise. *)
Inductive exn_class := ImportError | OSError (e : errno) | OtherError.

Record exn := Exn { class_of : exn_class; message : string }.

Definition is_ImportError (e : exn) : bool :=
  match class_of e with ImportError => true | _ => false end.

Definition is_FileNotFoundError (e : exn) : bool :=
  match class_of e with OSError ENOENT => true | _ => false end.

Definition is_OSError (e : exn) : bool :=
  match class_of e with OSError _ => true | _ => false end.

Definition errno_number (e : errno) : Z :=
  match e with ENOENT => 2 | EEXIST => 17 | ENOTDIR => 20 | EISDIR => 21 end.

Definition strerror (e : errno) : string :=
  match e with
  | ENOENT => "No such file or directory"
  | EEXIST => "File exists"
  | ENOTDIR => "Not a directory"
  | EISDIR => "Is a directory"
  end.

(** [str(e)] of the [OSError] raised for [p]. *)
Definition os_error (e : errno) (p : path) : exn :=
  Exn (OSError e)
      ("[Errno " +:+ pretty (errno_number e) +:+ "] " +:+ strerror e
                 +:+ ": '" +:+ PurePath.str p +:+ "'").

(** How a procedure ends: it returns a value, an exception propagates
    out of it, or [sys.exit(code)] was called. *)
Inductive result (A : Type) :=
| Ret (a : A)
| Raise (e : exn)
| SysExit (code : Z).
Arguments Ret {A} a.
Arguments Raise {A} e.
Arguments SysExit {A} code.

Record machine := Machine { disk : gmap path inode; stdout : list string }.

Definition M (A : Type) : Type := machine -> result A * machine.

Definition ret {A} (a : A) : M A := fun m => (Ret a, m).

Definition bind {A B} (c : M A) (k : A -> M B) : M B :=
  fun m =>
    match c m with
    | (Ret a, m') => k a m'
    | (Raise e, m') => (Raise e, m')
    | (SysExit n, m') => (SysExit n, m')
    end.

Definition raise {A} (e : exn) : M A := fun m => (Raise e, m).

(** [sys.exit(code)] *)
Definition sys_exit {A} (code : Z) : M A := fun m => (SysExit code, m).

(** [print(s)] *)
Definition print (s : string) : M unit :=
  fun m => (Ret tt, Machine (disk m) (stdout m ++ [s])).

(** [try: body  except ...:]  The handler table says, for an exception,
    which [except] clause takes it, if any.  [sys.exit] is not an
    [Exception] and passes through. *)
Definition try_except {A} (body : M A) (handlers : exn -> option (M A)) : M A :=
  fun m =>
    match body m with
    | (Raise e, m') =>
        match handlers e with
        | Some h => h m'
        | None => (Raise e, m')
        end
    | r => r
    end.

(** [for x in l: acc = body x acc] *)
Fixpoint for_each {A S} (l : list A) (body : A -> S -> M S) (acc : S) : M S :=
  match l with
  | [] => ret acc
  | x :: l' => bind (body x acc) (for_each l' body)
  end.

(** The exit status the shell sees: zero after a normal return, the
    argument of [sys.exit], one after an uncaught exception. *)
Definition exit_status {A} (r : result A) : Z :=
  match r with
  | Ret _ => 0
  | SysExit n => n
  | Raise _ => 1
  end.

(** The line feed inside a printed string. *)
Definition nl : string := String (ascii_of_nat 10) "".

(** [s * n] *)
Fixpoint repeat_str (s : string) (n : nat) : string :=
  match n with
  | O => ""
  | S n' => s +:+ repeat_str s n'
  end.

End Py.

Declare Scope py_scope.
Delimit Scope py_scope with py.
Notation "x <- c1 ;; c2" := (Py.bind c1 (fun x => c2))
  (at level 100, c1 at next level, right associativity) : py_scope.
Notation "c1 ;; c2" := (Py.bind c1 (fun _ => c2))
  (at level 100, right associativity) : py_scope.
Open Scope py_scope.

(** ** [json.dump(obj, f, indent=2)] *)

Module Json.

#[local] Set Warnings "-register-all".

Inductive json :=
| JString (s : string)
| JInt (z : Z)
| JFloat (repr : string)      (* a float literal, by its [repr] *)
| JBool (b : bool)
| JList (l : list json)
| JDict (kv : list (string * json)).

Definition dquote : string := String (ascii_of_nat 34) "".
Definition backslash : ascii := ascii_of_nat 92.

(** String escaping, for the characters that can occur in the two
    descriptors (printable ASCII). *)
Fixpoint escape (s : string) : string :=
  match s with
  | EmptyString => ""
  | String c s' =>
      if Ascii.eqb c (ascii_of_nat 34) || Ascii.eqb c backslash
      then String backslash (String c (escape s'))
      else String c (escape s')
  end.

Definition quote (s : string) : string := dquote +:+ escape s +:+ dquote.

Definition indent (depth : nat) : string := Py.repeat_str "  " depth.

Definition wrap (opening closing : string) (depth : nat) (items : list string)
  : string :=
  match items with
  | [] => opening +:+ closing
  | _ =>
      opening +:+ Py.nl +:+ indent (S depth)
        +:+ String.concat ("," +:+ Py.nl +:+ indent (S depth)) items
        +:+ Py.nl +:+ indent depth +:+ closing
  end.

Fixpoint dumps_at (depth : nat) (j : json) : string :=
  match j with
  | JString s => quote s
  | JInt z => pretty z
  | JFloat r => r
  | JBool b => if b then "true" else "false"
  | JList l => wrap "[" "]" depth (map (dumps_at (S depth)) l)
  | JDict kv =>
      wrap "{" "}" depth
           (map (fun '(k, v) => quote k +:+ ": " +:+ dumps_at (S depth) v) kv)
  end.

Definition dumps (j : json) : string := dumps_at 0 j.

(** [d[key]] on a dictionary. *)
Fixpoint assoc (key : string) (kv : list (string * json)) : option json :=
  match kv with
  | [] => None
  | (k, v) :: kv' => if decide (k = key) then Some v else assoc key kv'
  end.

Definition get (key : string) (j : json) : option json :=
  match j with
  | JDict kv => assoc key kv
  | _ => None
  end.

End Json.

(** ** Formatting a size in megabytes: [f"{size / (1024*1024):.1f}"] *)

Module Fmt.

Definition MiB : Z := 1024 * 1024.

(** The integer nearest to [n / d], ties to the even one ([0 < d]). *)
Definition round_half_even (n d : Z) : Z :=
  let q := n / d in
  let r := n mod d in
  if 2 * r <? d then q
  else if d <? 2 * r then q + 1
  else if Z.even q then q else q + 1.

(** Tenths of a megabyte in [size] bytes.  [size / (1024*1024)] is a
    true division of two integers; the divisor is a power of two, so for
    [size < 2^53] the double it yields is the quotient itself, and
    [:.1f] prints the decimal with one fractional digit nearest to that
    value, ties to even. *)
Definition mb_tenths (size : Z) : Z := round_half_even (10 * size) MiB.

Definition fixed1 (tenths : Z) : string :=
  pretty (tenths / 10) +:+ "." +:+ pretty (tenths mod 10).

Definition format_mb (size : Z) : string := fixed1 (mb_tenths size).

(** The division itself, on IEEE 754 binary64 numbers: both integers
    are converted to the nearest double and divided with rounding to
    nearest, ties to even. *)
Definition binary64_of_Z (n : Z) : SpecFloat.spec_float :=
  SpecFloat.binary_normalize 53 1024 n 0 false.

Definition true_div (a b : Z) : SpecFloat.spec_float :=
  SpecFloat.SFdiv 53 1024 (binary64_of_Z a) (binary64_of_Z b).

(** The double [f] is the rational [n / d], with no rounding error. *)
Definition is_quotient (f : SpecFloat.spec_float) (n d : Z) : bool :=
  match f with
  | SpecFloat.S754_zero _ => n =? 0
  | SpecFloat.S754_finite s m e =>
      let v := if s then - Z.pos m else Z.pos m in
      if 0 <=? e then v * 2 ^ e * d =? n else v * d =? n * 2 ^ (- e)
  | _ => false
  end.

End Fmt.

(** ** What the scripts do not own *)

Module World.
Import FS Py.

(** What a [save_pretrained(dir)] of an exported object does: it writes
    these files into [dir], in this order, and then either returns or
    raises. *)
Record saved := Saved {
  files : list (string * content);
  failure : option exn
}.

(** The object [ORTModelForCausalLM.from_pretrained] returns. *)
Record ort_model := OrtModel { model_export : saved }.

(** The object [AutoTokenizer.from_pretrained] returns. *)
Record tokenizer := Tokenizer {
  vocab_size : Z;
  tokenizer_export : saved
}.

Record world := World_ {
  (** working directory of the process, an absolute path *)
  cwd : path;
  (** [os.environ] *)
  environ : gmap string string;
  (** the modules whose import does not raise [ImportError] *)
  importable : string -> bool;
  (** [huggingface_hub.whoami()['name']], or the exception on the way *)
  whoami : exn + string;
  (** [ORTModelForCausalLM.from_pretrained(name, export=True,
      use_auth_token=token, provider="CPUExecutionProvider",
      use_cache=False)] *)
  ort_from_pretrained : string -> option string -> exn + ort_model;
  (** [AutoTokenizer.from_pretrained(name, use_auth_token=token)] *)
  tokenizer_from_pretrained : string -> option string -> exn + tokenizer
}.

End World.

(** ** [os] and [pathlib] on the machine *)

Module Os.
Import FS Py World.

Section WithCwd.
Variable wd : path.

(** [p.exists()]: [ENOENT] and [ENOTDIR] are swallowed. *)
Definition path_exists (p : path) : M bool :=
  fun m =>
    match namei (disk m) wd p with
    | inr _ => (Ret true, m)
    | inl _ => (Ret false, m)
    end.

(** [p.is_dir()] *)
Definition is_dir (p : path) : M bool :=
  fun m =>
    match namei (disk m) wd p with
    | inr (_, i) => (Ret (is_dir_inode i), m)
    | inl _ => (Ret false, m)
    end.

(** [p.stat().st_size] *)
Definition stat_size (p : path) : M N :=
  fun m =>
    match namei (disk m) wd p with
    | inr (_, i) => (Ret (st_size i), m)
    | inl e => (Raise (os_error e p), m)
    end.

(** [os.mkdir(p)] *)
Definition os_mkdir (p : path) : M unit :=
  fun m =>
    match FS.mkdir (disk m) wd p with
    | inr fs' => (Ret tt, Machine fs' (stdout m))
    | inl e => (Raise (os_error e p), m)
    end.

(** The [except OSError] clause of [Path.mkdir]. *)
Definition mkdir_exists (exist_ok : bool) (p : path) (e : exn) : M unit :=
  d <- is_dir p ;;
  if negb exist_ok || negb d then raise e else ret tt.

(** [p.mkdir(parents=False, exist_ok=exist_ok)] *)
Definition mkdir_single (exist_ok : bool) (p : path) : M unit :=
  try_except (os_mkdir p)
    (fun e =>
       if is_FileNotFoundError e then Some (raise e)
       else if is_OSError e then Some (mkdir_exists exist_ok p e)
       else None).

(** [p.mkdir(parents=parents, exist_ok=exist_ok)]:
<<
    try:
        os.mkdir(self, mode)
    except FileNotFoundError:
        if not parents or self.parent == self:
            raise
        self.parent.mkdir(parents=True, exist_ok=True)
        self.mkdir(mode, parents=False, exist_ok=exist_ok)
    except OSError:
        if not exist_ok or not self.is_dir():
            raise
>>
    A path is its own parent only when it is empty. *)
Fixpoint mkdir (parents exist_ok : bool) (p : path) : M unit :=
  try_except (os_mkdir p)
    (fun e =>
       if is_FileNotFoundError e then
         Some match p with
              | [] => raise e
              | _ :: parent =>
                  if negb parents then raise e
                  else mkdir true true parent ;; mkdir_single exist_ok p
              end
       else if is_OSError e then Some (mkdir_exists exist_ok p e)
       else None).

(** [with open(p, "w") as f: f.write(c)] *)
Definition write_file (p : path) (c : content) : M unit :=
  fun m =>
    match FS.write (disk m) wd p c with
    | inr fs' => (Ret tt, Machine fs' (stdout m))
    | inl e => (Raise (os_error e p), m)
    end.

(** [with open(p, "w") as f: json.dump(obj, f, indent=2)] *)
Definition json_dump (obj : Json.json) (p : path) : M unit :=
  write_file p (Text (Json.dumps obj)).

(** [sum(f.stat().st_size for f in p.rglob('*') if f.is_file())] *)
Definition rglob_size (p : path) : M N :=
  fun m =>
    match namei (disk m) wd p with
    | inr (root, _) => (Ret (tree_size (disk m) root), m)
    | inl _ => (Ret 0%N, m)
    end.

(** [obj.save_pretrained(dir)] *)
Definition save_pretrained (s : saved) (dir : path) : M unit :=
  for_each (files s) (fun '(name, c) _ => write_file (dir // name) c) tt ;;
  match failure s with
  | Some e => raise e
  | None => ret tt
  end.

End WithCwd.

(** [import name] *)
Definition import_module (w : world) (name : string) : M unit :=
  if importable w name then ret tt
  else raise (Exn ImportError ("No module named '" +:+ name +:+ "'")).

(** Calling into a library that either returns or raises. *)
Definition call {A} (r : exn + A) : M A :=
  match r with
  | inr a => ret a
  | inl e => raise e
  end.

End Os.

(** ** The setup verifier: [setup/check_setup.py] *)

Module CheckSetup.
Import FS Py World Os PurePath.

Definition required_files : list string :=
  [ "index.html";
    "script.js";
    "styles.css";
    "gemma-loader.js";
    "convert_gemma.py";
    "requirements.txt";
    "CLAUDE.md" ].

Definition deps : list string :=
  [ "transformers";
    "optimum";
    "torch";
    "huggingface_hub";
    "onnx";
    "onnxruntime" ].

Definition required_model_files : list string :=
  [ "onnx/model.onnx";
    "tokenizer/tokenizer.json";
    "config.json";
    "manifest.json" ].

Section Verifier.
Variable w : world.

Definition check_files : M bool :=
  print "🔍 Checking project files..." ;;
  missing_files <-
    for_each required_files
      (fun file missing_files =>
         present <- path_exists (cwd w) (Path file) ;;
         if negb present then ret (missing_files ++ [file])
         else print ("✅ " +:+ file) ;; ret missing_files)
      [] ;;
  match missing_files with
  | _ :: _ =>
      print ("❌ Missing files: " +:+ String.concat ", " missing_files) ;;
      ret false
  | [] =>
      print "✅ All required files present" ;;
      ret true
  end.

Definition check_python_deps : M bool :=
  print (nl +:+ "🔍 Checking Python dependencies...") ;;
  missing_deps <-
    for_each deps
      (fun dep missing_deps =>
         try_except
           ((if decide (dep = "optimum")
             then import_module w "optimum.onnxruntime"
             else import_module w dep) ;;
            print ("✅ " +:+ dep) ;;
            ret missing_deps)
           (fun e =>
              if is_ImportError e
              then Some (print ("❌ " +:+ dep) ;; ret (missing_deps ++ [dep]))
              else None))
      [] ;;
  match missing_deps with
  | _ :: _ =>
      print (nl +:+ "⚠️  Missing dependencies: "
                +:+ String.concat ", " missing_deps) ;;
      print "Run: pip install -r requirements.txt" ;;
      ret false
  | [] =>
      print "✅ All Python dependencies available" ;;
      ret true
  end.

Definition model_dir : path := Path "models/gemma-3-270m-onnx".

Definition check_model_conversion : M bool :=
  print (nl +:+ "🔍 Checking model conversion status...") ;;
  found <- path_exists (cwd w) model_dir ;;
  if negb found then
    print "❌ Model directory not found" ;;
    print "Run: python3 convert_gemma.py" ;;
    ret false
  else
    missing_model_files <-
      for_each required_model_files
        (fun file missing_model_files =>
           let model_file := model_dir // file in
           present <- path_exists (cwd w) model_file ;;
           if negb present then ret (missing_model_files ++ [file])
           else
             size <- stat_size (cwd w) model_file ;;
             print ("✅ " +:+ file +:+ " ("
                         +:+ Fmt.format_mb (Z.of_N size) +:+ " MB)") ;;
             ret missing_model_files)
        [] ;;
    match missing_model_files with
    | _ :: _ =>
        print ("❌ Model not converted. Missing: "
                 +:+ String.concat ", " missing_model_files) ;;
        print "Run: python3 convert_gemma.py" ;;
        ret false
    | [] =>
        print "✅ Model converted and ready" ;;
        ret true
    end.

Definition check_hf_auth : M bool :=
  print (nl +:+ "🔍 Checking Hugging Face authentication...") ;;
  try_except
    (import_module w "huggingface_hub" ;;
     name <- call (whoami w) ;;
     print ("✅ Authenticated as: " +:+ name) ;;
     ret true)
    (fun e =>
       Some (print ("❌ Not authenticated: " +:+ message e) ;;
             print "Run: huggingface-cli login" ;;
             ret false)).

Definition main : M unit :=
  print "🚀 Gemma 3 270M Project Setup Verification" ;;
  print (repeat_str "=" 50) ;;
  c0 <- check_files ;;
  c1 <- check_python_deps ;;
  c2 <- check_hf_auth ;;
  c3 <- check_model_conversion ;;
  print (nl +:+ repeat_str "=" 50) ;;
  if c0 && c1 && c2 && c3 then
    print "🎉 Setup complete! Ready to run the application." ;;
    print (nl +:+ "Next steps:") ;;
    print "1. python3 -m http.server 8000" ;;
    print "2. Open http://localhost:8000 in Chrome 113+"
  else
    print "⚠️  Setup incomplete. Please address the issues above." ;;
    (if negb c1 then
       print (nl +:+ "To install dependencies:") ;;
       print "pip install -r requirements.txt"
     else ret tt) ;;
    (if negb c2 then
       print (nl +:+ "To authenticate with Hugging Face:") ;;
       print "huggingface-cli login"
     else ret tt) ;;
    (if negb c3 then
       print (nl +:+ "To convert the model:") ;;
       print "python3 convert_gemma.py"
     else ret tt).

End Verifier.

End CheckSetup.

(** ** The model converter: [setup/convert_gemma.py] *)

Module ConvertGemma.
Import FS Py World Os PurePath Json.

Definition required_packages : list string :=
  [ "transformers";
    "optimum[onnxruntime]";
    "torch";
    "huggingface_hub" ].

Definition model_name : string := "google/gemma-3-270m".

(** The [config] dictionary of [convert_model_to_onnx]. *)
Definition config (vocab : Z) : json :=
  JDict
    [ ("model_type", JString "gemma");
      ("task", JString "text-generation");
      ("onnx_file", JString "model.onnx");
      ("tokenizer_file", JString "tokenizer.json");
      ("architecture", JString "GemmaForCausalLM");
      ("max_position_embeddings", JInt 2048);
      ("vocab_size", JInt vocab);
      ("conversion_date", JString "2024");
      ("source", JString "google/gemma-3-270m");
      ("quantized", JBool false) ].

(** The [manifest] dictionary of [create_browser_manifest]. *)
Definition manifest : json :=
  JDict
    [ ("name", JString "Gemma 3 270M");
      ("version", JString "1.0.0");
      ("description",
        JString "Gemma 3 270M converted to ONNX for browser usage");
      ("files",
        JDict [ ("model", JString "onnx/model.onnx");
                ("tokenizer", JString "tokenizer/tokenizer.json");
                ("config", JString "config.json") ]);
      ("requirements",
        JDict [ ("webgpu", JBool true);
                ("memory_mb", JInt 1024);
                ("browser",
                  JList [ JString "chrome"; JString "edge";
                          JString "firefox-nightly" ]) ]);
      ("usage",
        JDict [ ("max_tokens", JInt 2048);
                ("temperature", JFloat "0.7");
                ("top_p", JFloat "0.9") ]) ].

Section Converter.
Variable w : world.

Definition check_dependencies : M bool :=
  missing_packages <-
    for_each required_packages
      (fun package missing_packages =>
         try_except
           ((if decide (package = "optimum[onnxruntime]")
             then import_module w "optimum.onnxruntime"
             else if decide (package = "transformers")
             then import_module w "transformers"
             else if decide (package = "torch")
             then import_module w "torch"
             else if decide (package = "huggingface_hub")
             then import_module w "huggingface_hub"
             else ret tt) ;;
            ret missing_packages)
           (fun e =>
              if is_ImportError e
              then Some (ret (missing_packages ++ [package]))
              else None))
      [] ;;
  match missing_packages with
  | _ :: _ =>
      print ("❌ Missing required packages: "
               +:+ String.concat ", " missing_packages) ;;
      print "Please install them with:" ;;
      print ("pip install " +:+ String.concat " " missing_packages) ;;
      ret false
  | [] =>
      print "✅ All required packages are installed" ;;
      ret true
  end.

Definition setup_directories : M path :=
  let model_dir := Path "../web/models/gemma-3-270m-onnx" in
  mkdir (cwd w) true true model_dir ;;
  mkdir (cwd w) false true (model_dir // "onnx") ;;
  mkdir (cwd w) false true (model_dir // "tokenizer") ;;
  print ("✅ Created model directory: " +:+ str model_dir) ;;
  ret model_dir.

(** The body of the [try] statement of [convert_model_to_onnx]. *)
Definition convert_body (model_dir : path) (use_auth_token : option string)
  : M bool :=
  import_module w "optimum.onnxruntime" ;;
  import_module w "transformers" ;;
  print ("🔄 Starting conversion of " +:+ model_name +:+ "...") ;;
  print "📥 Downloading and converting model to ONNX..." ;;
  ort_model <- call (ort_from_pretrained w model_name use_auth_token) ;;
  print "📥 Loading tokenizer..." ;;
  tokenizer <- call (tokenizer_from_pretrained w model_name use_auth_token) ;;
  let onnx_path := model_dir // "onnx" in
  let tokenizer_path := model_dir // "tokenizer" in
  print ("💾 Saving ONNX model to " +:+ str onnx_path +:+ "...") ;;
  save_pretrained (cwd w) (model_export ort_model) onnx_path ;;
  print ("💾 Saving tokenizer to " +:+ str tokenizer_path +:+ "...") ;;
  save_pretrained (cwd w) (tokenizer_export tokenizer) tokenizer_path ;;
  json_dump (cwd w) (config (vocab_size tokenizer)) (model_dir // "config.json") ;;
  print "✅ Model conversion completed successfully!" ;;
  print ("📁 Model files saved in: " +:+ str model_dir) ;;
  ret true.

Definition convert_handlers (e : exn) : option (M bool) :=
  if is_ImportError e then
    Some (print ("❌ Import error: " +:+ message e) ;;
          print "Please install required packages: pip install optimum[onnxruntime] transformers torch" ;;
          ret false)
  else
    Some (print ("❌ Conversion failed: " +:+ message e) ;;
          ret false).

Definition convert_model_to_onnx (model_dir : path)
  (use_auth_token : option string) : M bool :=
  try_except (convert_body model_dir use_auth_token) convert_handlers.

Definition create_browser_manifest (model_dir : path) : M unit :=
  json_dump (cwd w) manifest (model_dir // "manifest.json") ;;
  print "✅ Created browser manifest file".

(** The part of [main] between the dependency check and the conversion:
    directory setup and token resolution. *)
Definition resolve_token : M (option string) :=
  match environ w !! "HF_TOKEN" with
  | Some token =>
      print "✅ Using Hugging Face token from environment" ;;
      ret (Some token)
  | None =>
      print "⚠️  No HF_TOKEN found. You may need to authenticate:" ;;
      print "   huggingface-cli login" ;;
      print "   or set HF_TOKEN environment variable" ;;
      ret None
  end.

Definition report_success (model_dir : path) : M unit :=
  print (nl +:+ "🎉 Conversion completed successfully!") ;;
  print (nl +:+ "Next steps:") ;;
  print "1. Start a local server to serve the model files" ;;
  print "2. Update your HTML to load the converted model" ;;
  print "3. Test the model in a WebGPU-enabled browser" ;;
  print (nl +:+ "Model location: " +:+ absolute_str (cwd w) model_dir) ;;
  model_size <- rglob_size (cwd w) model_dir ;;
  print ("Total model size: " +:+ Fmt.format_mb (Z.of_N model_size) +:+ " MB").

Definition main : M unit :=
  print "🚀 Gemma 3 270M to ONNX Converter" ;;
  print (repeat_str "=" 50) ;;
  ok <- check_dependencies ;;
  (if negb ok then sys_exit 1 else ret tt) ;;
  model_dir <- setup_directories ;;
  auth_token <- resolve_token ;;
  success <- convert_model_to_onnx model_dir auth_token ;;
  if success then
    create_browser_manifest model_dir ;;
    report_success model_dir
  else
    print (nl +:+ "❌ Conversion failed. Please check the error messages above.") ;;
    sys_exit 1.

End Converter.

End ConvertGemma.

(** ** Vocabulary of the properties *)

Module Spec.
Import FS Py World PurePath.

(** [p] resolves from the working directory [wd]. *)
Definition present (fs : gmap path inode) (wd p : path) : bool :=
  match namei fs wd p with
  | inr _ => true
  | inl _ => false
  end.

(** [p] resolves to a directory. *)
Definition directory (fs : gmap path inode) (wd p : path) : bool :=
  match namei fs wd p with
  | inr (_, Dir) => true
  | _ => false
  end.

(** The inode [p] resolves to. *)
Definition inode_of (fs : gmap path inode) (wd p : path) : option inode :=
  match namei fs wd p with
  | inr (_, i) => Some i
  | inl _ => None
  end.

(** Byte size of what [p] resolves to (zero when it does not). *)
Definition size_of (fs : gmap path inode) (wd p : path) : N :=
  match inode_of fs wd p with
  | Some i => st_size i
  | None => 0%N
  end.

(** The names of [l] that do not exist below [base]. *)
Definition absent_from (fs : gmap path inode) (wd base : path)
  (l : list string) : list string :=
  List.filter (fun f => negb (present fs wd (base // f))) l.

Definition present_in (fs : gmap path inode) (wd base : path)
  (l : list string) : list string :=
  List.filter (fun f => present fs wd (base // f)) l.

#[global] Arguments absent_from : simpl never.
#[global] Arguments present_in : simpl never.

(** The module a dependency name is probed through by the verifier. *)
Definition verifier_probe (dep : string) : string :=
  if decide (dep = "optimum") then "optimum.onnxruntime" else dep.

(** The modules the converter's dependency check imports. *)
Definition converter_probes : list string :=
  [ "transformers"; "optimum.onnxruntime"; "torch"; "huggingface_hub" ].

(** The module a package name is probed through by the converter. *)
Definition converter_probe (package : string) : string :=
  if decide (package = "optimum[onnxruntime]") then "optimum.onnxruntime"
  else package.

Definition missing_packages (w : world) : list string :=
  List.filter (fun p => negb (importable w (converter_probe p)))
              ConvertGemma.required_packages.

Definition packages_verdict (missing : list string) : list string :=
  match missing with
  | [] => [ "✅ All required packages are installed" ]
  | _ => [ "❌ Missing required packages: " +:+ String.concat ", " missing;
           "Please install them with:";
           "pip install " +:+ String.concat " " missing ]
  end.

(** What the checks of the verifier print last. *)
Definition files_verdict (missing : list string) : string :=
  match missing with
  | [] => "✅ All required files present"
  | _ => "❌ Missing files: " +:+ String.concat ", " missing
  end.

Definition model_verdict (missing : list string) : list string :=
  match missing with
  | [] => [ "✅ Model converted and ready" ]
  | _ => [ "❌ Model not converted. Missing: " +:+ String.concat ", " missing;
           "Run: python3 convert_gemma.py" ]
  end.

Definition dep_line (w : world) (dep : string) : string :=
  (if importable w (verifier_probe dep) then "✅ " else "❌ ") +:+ dep.

Definition missing_deps (w : world) (l : list string) : list string :=
  List.filter (fun dep => negb (importable w (verifier_probe dep))) l.

Definition deps_verdict (missing : list string) : list string :=
  match missing with
  | [] => [ "✅ All Python dependencies available" ]
  | _ => [ nl +:+ "⚠️  Missing dependencies: " +:+ String.concat ", " missing;
           "Run: pip install -r requirements.txt" ]
  end.

(** The first line each check of the verifier prints. *)
Definition check_headers : list string :=
  [ "🔍 Checking project files...";
    nl +:+ "🔍 Checking Python dependencies...";
    nl +:+ "🔍 Checking Hugging Face authentication...";
    nl +:+ "🔍 Checking model conversion status..." ].

(** The claim about the model-file list, as the specification words it:
    whenever a listed file is absent the check fails and names exactly
    the absent ones. *)
Definition names_missing_model_files (w : world) (m : machine) : Prop :=
  let missing :=
    absent_from (disk m) (cwd w) CheckSetup.model_dir
                CheckSetup.required_model_files in
  missing <> [] ->
  fst (CheckSetup.check_model_conversion w m) = Ret false
  /\ In ("❌ Model not converted. Missing: " +:+ String.concat ", " missing)
        (stdout (snd (CheckSetup.check_model_conversion w m))).

(** The model root of the converter, relative to its working
    directory. *)
Definition converter_root : path := Path "../web/models/gemma-3-270m-onnx".

(** The model root and its two subdirectories are directories. *)
Definition layout_ready (fs : gmap path inode) (wd : path) : Prop :=
  directory fs wd converter_root = true
  /\ directory fs wd (converter_root // "onnx") = true
  /\ directory fs wd (converter_root // "tokenizer") = true.

Definition setup_line : string :=
  "✅ Created model directory: ../web/models/gemma-3-270m-onnx".

(** What the converter prints about the token. *)
Definition token_lines (w : world) : list string :=
  match environ w !! "HF_TOKEN" with
  | Some _ => [ "✅ Using Hugging Face token from environment" ]
  | None => [ "⚠️  No HF_TOKEN found. You may need to authenticate:";
               "   huggingface-cli login";
               "   or set HF_TOKEN environment variable" ]
  end.

(** What the [except] clauses of [convert_model_to_onnx] print. *)
Definition failure_lines (e : exn) : list string :=
  if is_ImportError e then
    [ "❌ Import error: " +:+ message e;
      "Please install required packages: pip install optimum[onnxruntime] transformers torch" ]
  else [ "❌ Conversion failed: " +:+ message e ].

(** The line the model-conversion check prints for a file that exists. *)
Definition size_line (fs : gmap path inode) (wd : path) (file : string)
  : string :=
  "✅ " +:+ file +:+ " ("
       +:+ Fmt.format_mb (Z.of_N (size_of fs wd (CheckSetup.model_dir // file)))
       +:+ " MB)".

(** The conditions under which the converter is said to exit non-zero. *)
Definition dependency_check_fails (w : world) (m : machine) : Prop :=
  fst (ConvertGemma.check_dependencies w m) = Ret false.

Definition setup_raises (w : world) (m : machine) : Prop :=
  exists e, fst (ConvertGemma.setup_directories w m) = Raise e.

Definition conversion_fails (w : world) (m : machine) : Prop :=
  exists d m1,
    ConvertGemma.setup_directories w m = (Ret d, m1)
    /\ fst (ConvertGemma.convert_model_to_onnx w d (environ w !! "HF_TOKEN") m1)
       = Ret false.

Definition manifest_raises (w : world) (m : machine) : Prop :=
  exists d m1 m2 e,
    ConvertGemma.setup_directories w m = (Ret d, m1)
    /\ ConvertGemma.convert_model_to_onnx w d (environ w !! "HF_TOKEN") m1
       = (Ret true, m2)
    /\ fst (ConvertGemma.create_browser_manifest w d m2) = Raise e.

(** The exit-code claim as the specification words it. *)
Definition exits_nonzero_iff_deps_or_conversion (w : world) (m : machine)
  : Prop :=
  exit_status (fst (ConvertGemma.main w m)) <> 0
  <-> dependency_check_fails w m \/ conversion_fails w m.

(** How a run of the converter ends, by the step that decides it. *)
Inductive ending (w : world) (m : machine)
  : result unit -> gmap path inode -> Prop :=
| MissingPackages :
    missing_packages w <> [] ->
    ending w m (SysExit 1) (disk m)
| SetupRaised e m1 :
    missing_packages w = [] ->
    ConvertGemma.setup_directories w m = (Raise e, m1) ->
    ending w m (Raise e) (disk m1)
| ConversionFailed m1 m2 :
    missing_packages w = [] ->
    ConvertGemma.setup_directories w m = (Ret converter_root, m1) ->
    ConvertGemma.convert_model_to_onnx w converter_root (environ w !! "HF_TOKEN") m1
      = (Ret false, m2) ->
    ending w m (SysExit 1) (disk m2)
| ManifestRaised m1 m2 e m3 :
    missing_packages w = [] ->
    ConvertGemma.setup_directories w m = (Ret converter_root, m1) ->
    ConvertGemma.convert_model_to_onnx w converter_root (environ w !! "HF_TOKEN") m1
      = (Ret true, m2) ->
    ConvertGemma.create_browser_manifest w converter_root m2 = (Raise e, m3) ->
    ending w m (Raise e) (disk m3)
| Completed m1 m2 m3 :
    missing_packages w = [] ->
    ConvertGemma.setup_directories w m = (Ret converter_root, m1) ->
    ConvertGemma.convert_model_to_onnx w converter_root (environ w !! "HF_TOKEN") m1
      = (Ret true, m2) ->
    ConvertGemma.create_browser_manifest w converter_root m2 = (Ret tt, m3) ->
    ending w m (Ret tt) (disk m3).


(** *** Further vocabulary *)

(** What the authentication check has to go on: the identity the hub
    returns, or the exception that stops it (a missing
    [huggingface_hub] included). *)
Definition identity (w : world) : exn + string :=
  if importable w "huggingface_hub" then whoami w
  else inl (Exn ImportError "No module named 'huggingface_hub'").

(** The modules the verifier's dependency check imports. *)
Definition verifier_probes : list string :=
  [ "transformers"; "optimum.onnxruntime"; "torch"; "huggingface_hub";
    "onnx"; "onnxruntime" ].

(** The outcome of each check of the verifier, read off the world and the
    disk. *)
Definition files_ok (w : world) (fs : gmap path inode) : bool :=
  bool_decide (absent_from fs (cwd w) [] CheckSetup.required_files = []).

Definition deps_ok (w : world) : bool :=
  bool_decide (missing_deps w CheckSetup.deps = []).

Definition auth_ok (w : world) : bool :=
  match identity w with inr _ => true | inl _ => false end.

Definition model_ok (w : world) (fs : gmap path inode) : bool :=
  present fs (cwd w) CheckSetup.model_dir
  && bool_decide (absent_from fs (cwd w) CheckSetup.model_dir
                              CheckSetup.required_model_files = []).

(** What the verifier prints after the four checks. *)
Definition summary (c0 c1 c2 c3 : bool) : list string :=
  if c0 && c1 && c2 && c3 then
    [ "🎉 Setup complete! Ready to run the application.";
      nl +:+ "Next steps:";
      "1. python3 -m http.server 8000";
      "2. Open http://localhost:8000 in Chrome 113+" ]
  else
    "⚠️  Setup incomplete. Please address the issues above."
      :: (if c1 then []
          else [ nl +:+ "To install dependencies:";
                 "pip install -r requirements.txt" ])
      ++ (if c2 then []
          else [ nl +:+ "To authenticate with Hugging Face:";
                 "huggingface-cli login" ])
      ++ (if c3 then []
          else [ nl +:+ "To convert the model:";
                 "python3 convert_gemma.py" ]).


(** *** Kinds of procedure *)

(** A procedure that only reads the disk and writes to the console, and
    always returns. *)
Definition observer {A} (c : M A) : Prop :=
  forall m, exists a out, c m = (Ret a, Machine (disk m) (stdout m ++ out)).

(** A procedure that removes nothing from the disk, however it ends. *)
Definition monotone {A} (c : M A) : Prop :=
  forall m r m', c m = (r, m') -> preserved (disk m) (disk m').

(** A procedure that never calls [sys.exit]. *)
Definition exitless {A} (c : M A) : Prop :=
  forall m n m', c m <> (SysExit n, m').

(** The result and the disk a procedure leaves depend on the disk it
    starts from only; what it prints is appended to the console. *)
Definition framed {A} (c : M A) : Prop :=
  forall fs, exists r fs' delta,
    forall out, c (Machine fs out) = (r, Machine fs' (out ++ delta)).

End Spec.

(** ** Concrete worlds *)

Module Examples.
Import FS Py World.

(** A checkout with the two scripts in [/repo/setup]. *)
Definition repo_disk : gmap path inode :=
  <[ ["setup"; "repo"] := Dir ]> (<[ ["repo"] := Dir ]> ∅).

Definition exported_model : ort_model :=
  OrtModel (Saved [ ("model.onnx", Blob 1100000000);
                    ("config.json", Text "{}") ] None).

Definition exported_tokenizer : tokenizer :=
  Tokenizer 262144
    (Saved [ ("tokenizer.json", Blob 33000000);
             ("tokenizer_config.json", Text "{}") ] None).

(** Everything installed, a token in the environment, the hub
    answering; the process runs in [/repo/setup]. *)
Definition setup_world : world :=
  World_ ["setup"; "repo"] {[ "HF_TOKEN" := "hf_token" ]} (fun _ => true)
         (inr "alice")
         (fun _ _ => inr exported_model) (fun _ _ => inr exported_tokenizer).

(** The same, run from [/repo/web]. *)
Definition web_world : world :=
  World_ ["web"; "repo"] {[ "HF_TOKEN" := "hf_token" ]} (fun _ => true)
         (inr "alice")
         (fun _ _ => inr exported_model) (fun _ _ => inr exported_tokenizer).

(** The converter's four packages installed, [onnx] and [onnxruntime]
    not. *)
Definition without_onnx : world :=
  World_ ["setup"; "repo"] ∅
         (fun name => negb (String.eqb name "onnx" || String.eqb name "onnxruntime"))
         (inr "alice")
         (fun _ _ => inr exported_model) (fun _ _ => inr exported_tokenizer).

(** No token, and a hub that refuses anonymous downloads. *)
Definition gated : exn := Exn OtherError "401 Client Error: Unauthorized".

Definition anonymous_world : world :=
  World_ ["setup"; "repo"] ∅ (fun _ => true) (inl gated)
         (fun _ token => match token with
                         | Some _ => inr exported_model
                         | None => inl gated
                         end)
         (fun _ token => match token with
                         | Some _ => inr exported_tokenizer
                         | None => inl gated
                         end).

(** The tokenizer export breaks after the model was saved. *)
Definition broken_tokenizer : tokenizer :=
  Tokenizer 262144 (Saved [] (Some (Exn OtherError "disk quota exceeded"))).

Definition broken_world : world :=
  World_ ["setup"; "repo"] {[ "HF_TOKEN" := "hf_token" ]} (fun _ => true)
         (inr "alice")
         (fun _ _ => inr exported_model) (fun _ _ => inr broken_tokenizer).

(** A model root in which [manifest.json] is a directory. *)
Definition manifest_dir_disk : gmap path inode :=
  <[ ["manifest.json"; "gemma-3-270m-onnx"; "models"; "web"; "repo"] := Dir ]>
    (<[ ["gemma-3-270m-onnx"; "models"; "web"; "repo"] := Dir ]>
       (<[ ["models"; "web"; "repo"] := Dir ]>
          (<[ ["web"; "repo"] := Dir ]> repo_disk))).

(** A model root below [/repo/web], already populated by an earlier
    run. *)
Definition populated_disk : gmap path inode :=
  <[ ["tokenizer.json"; "tokenizer"; "gemma-3-270m-onnx"; "models"; "web"; "repo"]
     := Reg (Blob 33000000) ]>
    (<[ ["tokenizer"; "gemma-3-270m-onnx"; "models"; "web"; "repo"] := Dir ]>
       (<[ ["model.onnx"; "onnx"; "gemma-3-270m-onnx"; "models"; "web"; "repo"]
           := Reg (Blob 1100000000) ]>
          (<[ ["onnx"; "gemma-3-270m-onnx"; "models"; "web"; "repo"] := Dir ]>
             (<[ ["gemma-3-270m-onnx"; "models"; "web"; "repo"] := Dir ]>
                (<[ ["models"; "web"; "repo"] := Dir ]>
                   (<[ ["web"; "repo"] := Dir ]> repo_disk)))))).

(** A model root below [/repo/setup] with the exported model only. *)
Definition partial_disk : gmap path inode :=
  <[ ["model.onnx"; "onnx"; "gemma-3-270m-onnx"; "models"; "setup"; "repo"]
     := Reg (Blob 262144) ]>
    (<[ ["onnx"; "gemma-3-270m-onnx"; "models"; "setup"; "repo"] := Dir ]>
       (<[ ["gemma-3-270m-onnx"; "models"; "setup"; "repo"] := Dir ]>
          (<[ ["models"; "setup"; "repo"] := Dir ]> repo_disk))).

(** A complete model root below [/repo/setup]. *)
Definition complete_disk : gmap path inode :=
  <[ ["manifest.json"; "gemma-3-270m-onnx"; "models"; "setup"; "repo"]
     := Reg (Blob 786432) ]>
    (<[ ["config.json"; "gemma-3-270m-onnx"; "models"; "setup"; "repo"]
        := Reg (Text "{}") ]>
       (<[ ["tokenizer.json"; "tokenizer"; "gemma-3-270m-onnx"; "models";
            "setup"; "repo"] := Reg (Blob 33000000) ]>
          (<[ ["tokenizer"; "gemma-3-270m-onnx"; "models"; "setup"; "repo"]
              := Dir ]> partial_disk))).

(** [torch] is not installed. *)
Definition without_torch : world :=
  World_ ["setup"; "repo"] ∅ (fun name => negb (String.eqb name "torch"))
         (inr "alice")
         (fun _ _ => inr exported_model) (fun _ _ => inr exported_tokenizer).

(** The model root is a regular file. *)
Definition root_file_disk : gmap path inode :=
  <[ ["gemma-3-270m-onnx"; "models"; "web"; "repo"] := Reg (Text "") ]>
    (<[ ["models"; "web"; "repo"] := Dir ]>
       (<[ ["web"; "repo"] := Dir ]> repo_disk)).

End Examples.

(** * Properties *)

(** ** Running procedures *)

Module Run.
Import FS Py Spec.

Lemma bind_ret {A B} (c : M A) (k : A -> M B) m a m' :
  c m = (Ret a, m') -> bind c k m = k a m'.
Proof. intros H. unfold bind. now rewrite H. Qed.

Lemma bind_raise {A B} (c : M A) (k : A -> M B) m e m' :
  c m = (Raise e, m') -> bind c k m = (Raise e, m').
Proof. intros H. unfold bind. now rewrite H. Qed.

Lemma bind_exit {A B} (c : M A) (k : A -> M B) m n m' :
  c m = (SysExit n, m') -> bind c k m = (SysExit n, m').
Proof. intros H. unfold bind. now rewrite H. Qed.

Lemma bind_assoc {A B C} (c : M A) (k : A -> M B) (h : B -> M C) m :
  bind (bind c k) h m = bind c (fun a => bind (k a) h) m.
Proof. unfold bind. destruct (c m) as [[a|e|n] m']; reflexivity. Qed.

Lemma try_ret {A} (c : M A) h m a m' :
  c m = (Ret a, m') -> try_except c h m = (Ret a, m').
Proof. intros H. unfold try_except. now rewrite H. Qed.

Lemma try_raise {A} (c : M A) h m e m' :
  c m = (Raise e, m') ->
  try_except c h m = match h e with Some k => k m' | None => (Raise e, m') end.
Proof. intros H. unfold try_except. now rewrite H. Qed.

Lemma print_run s m :
  print s m = (Ret tt, Machine (disk m) (stdout m ++ [s])).
Proof. reflexivity. Qed.

Lemma observer_ret {A} (a : A) : observer (ret a).
Proof. intros m. exists a, []. unfold ret. rewrite app_nil_r. now destruct m. Qed.

Lemma observer_print s : observer (print s).
Proof. intros m. now exists tt, [s]. Qed.

Lemma observer_bind {A B} (c : M A) (k : A -> M B) :
  observer c -> (forall a, observer (k a)) -> observer (bind c k).
Proof.
  intros Hc Hk m. destruct (Hc m) as (a & out & Ha).
  destruct (Hk a (Machine (disk m) (stdout m ++ out))) as (b & out' & Hb).
  exists b, (out ++ out'). rewrite (bind_ret _ _ _ _ _ Ha), Hb. simpl.
  now rewrite app_assoc.
Qed.

Lemma observer_for_each {A S} (l : list A) (body : A -> S -> M S) :
  (forall x acc, observer (body x acc)) ->
  forall acc, observer (for_each l body acc).
Proof.
  intros Hb. induction l as [|x l IH]; intros acc; simpl.
  - apply observer_ret.
  - apply observer_bind; auto.
Qed.

Lemma observer_if {A} (b : bool) (c1 c2 : M A) :
  observer c1 -> observer c2 -> observer (if b then c1 else c2).
Proof. now destruct b. Qed.

End Run.

Create HintDb observer.
#[export] Hint Resolve Run.observer_ret Run.observer_print Run.observer_bind
  Run.observer_for_each Run.observer_if : observer.

(** ** The verifier's checks *)

Module CheckSetupFacts.
Import FS Py World Os PurePath Run Spec CheckSetup.

Lemma path_exists_run wd p m :
  path_exists wd p m = (Ret (present (disk m) wd p), m).
Proof. unfold path_exists, present. now destruct (namei _ _ _). Qed.

Lemma stat_size_present wd p m :
  present (disk m) wd p = true ->
  stat_size wd p m = (Ret (size_of (disk m) wd p), m).
Proof.
  unfold stat_size, present, size_of, inode_of.
  destruct (namei _ _ _) as [e|[d i]]; [discriminate | reflexivity].
Qed.

Section Checks.
Variable w : world.

(** The loop of [check_files]: the accumulator collects the absent
    names in list order, one tick is printed per present name. *)
Lemma check_files_loop (l : list string) : forall acc m,
  for_each l
    (fun file missing_files =>
       present <- path_exists (cwd w) (Path file) ;;
       if negb present then ret (missing_files ++ [file])
       else print ("✅ " +:+ file) ;; ret missing_files)
    acc m
  = (Ret (acc ++ absent_from (disk m) (cwd w) [] l),
     Machine (disk m)
       (stdout m ++ map (fun f => "✅ " +:+ f) (present_in (disk m) (cwd w) [] l))).
Proof.
  unfold absent_from, present_in.
  induction l as [|f l IH]; intros acc m; simpl.
  - unfold ret. rewrite !app_nil_r. now destruct m.
  - unfold bind at 1 2. rewrite path_exists_run.
    unfold join. rewrite app_nil_r.
    destruct (present (disk m) (cwd w) (Path f)) eqn:Hp; simpl.
    + rewrite IH. simpl. now rewrite <- app_assoc.
    + unfold ret at 1. rewrite IH. now rewrite <- app_assoc.
Qed.

Lemma check_files_run m :
  let missing := absent_from (disk m) (cwd w) [] required_files in
  check_files w m
  = (Ret (bool_decide (missing = [])),
     Machine (disk m)
       (stdout m ++ "🔍 Checking project files..."
          :: map (fun f => "✅ " +:+ f)
                 (present_in (disk m) (cwd w) [] required_files)
          ++ [files_verdict missing])).
Proof.
  intros missing. unfold check_files.
  unfold bind at 1. rewrite print_run.
  unfold bind at 1. rewrite check_files_loop. cbn [disk stdout app].
  fold missing. destruct missing as [|f l];
    cbv [bind print ret]; cbn [disk stdout bool_decide];
    rewrite <- !app_assoc; reflexivity.
Qed.

(** The loop of [check_model_conversion]. *)
Lemma model_files_loop (l : list string) : forall acc m,
  for_each l
    (fun file missing_model_files =>
       let model_file := model_dir // file in
       present <- path_exists (cwd w) model_file ;;
       if negb present then ret (missing_model_files ++ [file])
       else
         size <- stat_size (cwd w) model_file ;;
         print ("✅ " +:+ file +:+ " ("
                     +:+ Fmt.format_mb (Z.of_N size) +:+ " MB)") ;;
         ret missing_model_files)
    acc m
  = (Ret (acc ++ absent_from (disk m) (cwd w) model_dir l),
     Machine (disk m)
       (stdout m ++ map (size_line (disk m) (cwd w))
                        (present_in (disk m) (cwd w) model_dir l))).
Proof.
  unfold absent_from, present_in.
  induction l as [|f l IH]; intros acc m; simpl.
  - unfold ret. rewrite !app_nil_r. now destruct m.
  - unfold bind at 1 2. rewrite path_exists_run.
    destruct (present (disk m) (cwd w) (model_dir // f)) eqn:Hp; simpl.
    + unfold bind at 1 2. rewrite (stat_size_present _ _ _ Hp).
      unfold bind at 1. rewrite print_run. unfold ret at 1.
      rewrite IH. cbn [disk stdout]. now rewrite <- app_assoc.
    + unfold ret at 1. rewrite IH. now rewrite <- app_assoc.
Qed.

Lemma check_model_conversion_found m :
  present (disk m) (cwd w) model_dir = true ->
  let missing := absent_from (disk m) (cwd w) model_dir required_model_files in
  check_model_conversion w m
  = (Ret (bool_decide (missing = [])),
     Machine (disk m)
       (stdout m ++ (nl +:+ "🔍 Checking model conversion status...")
          :: map (size_line (disk m) (cwd w))
                 (present_in (disk m) (cwd w) model_dir required_model_files)
          ++ model_verdict missing)).
Proof.
  intros Hroot missing. unfold check_model_conversion.
  unfold bind at 1. rewrite print_run.
  unfold bind at 1. rewrite path_exists_run. cbn [disk]. rewrite Hroot.
  cbn [negb]. unfold bind at 1. rewrite model_files_loop. cbn [disk stdout app].
  fold missing. destruct missing as [|f l];
    cbv [bind print ret model_verdict]; cbn [disk stdout bool_decide];
    rewrite <- !app_assoc; reflexivity.
Qed.

Lemma check_model_conversion_not_found m :
  present (disk m) (cwd w) model_dir = false ->
  check_model_conversion w m
  = (Ret false,
     Machine (disk m)
       (stdout m ++ [ nl +:+ "🔍 Checking model conversion status...";
                      "❌ Model directory not found";
                      "Run: python3 convert_gemma.py" ])).
Proof.
  intros Hroot. unfold check_model_conversion.
  unfold bind at 1. rewrite print_run.
  unfold bind at 1. rewrite path_exists_run. cbn [disk]. rewrite Hroot.
  cbv [bind print ret negb]. cbn [disk stdout].
  rewrite <- !app_assoc. reflexivity.
Qed.

(** The loop of [check_python_deps]. *)
Lemma python_deps_loop (l : list string) : forall acc m,
  for_each l
    (fun dep missing_deps =>
       try_except
         ((if decide (dep = "optimum")
           then import_module w "optimum.onnxruntime"
           else import_module w dep) ;;
          print ("✅ " +:+ dep) ;;
          ret missing_deps)
         (fun e =>
            if is_ImportError e
            then Some (print ("❌ " +:+ dep) ;; ret (missing_deps ++ [dep]))
            else None))
    acc m
  = (Ret (acc ++ missing_deps w l),
     Machine (disk m) (stdout m ++ map (dep_line w) l)).
Proof.
  induction l as [|dep l IH]; intros acc m; cbn [for_each missing_deps List.filter map].
  - unfold ret. rewrite !app_nil_r. now destruct m.
  - unfold bind at 1.
    assert (Himp : (if decide (dep = "optimum")
                    then import_module w "optimum.onnxruntime"
                    else import_module w dep)
                   = import_module w (verifier_probe dep)).
    { unfold verifier_probe. now destruct (decide _). }
    rewrite Himp. unfold dep_line at 1, import_module.
    destruct (importable w (verifier_probe dep)); cbn [negb];
      cbv [try_except bind print ret raise is_ImportError class_of];
      cbn [disk stdout]; fold (missing_deps w l); rewrite IH; cbn [disk stdout];
      now rewrite <- !app_assoc.
Qed.

Lemma check_python_deps_run m :
  check_python_deps w m
  = (Ret (bool_decide (missing_deps w deps = [])),
     Machine (disk m)
       (stdout m ++ (nl +:+ "🔍 Checking Python dependencies...")
          :: map (dep_line w) deps ++ deps_verdict (missing_deps w deps))).
Proof.
  unfold check_python_deps.
  unfold bind at 1. rewrite print_run.
  unfold bind at 1. rewrite python_deps_loop. cbn [disk stdout app].
  destruct (missing_deps w deps) as [|f l];
    cbv [bind print ret deps_verdict]; cbn [disk stdout bool_decide];
    rewrite <- !app_assoc; reflexivity.
Qed.

Lemma check_hf_auth_observer : observer (check_hf_auth w).
Proof.
  intros m. unfold check_hf_auth, import_module, call.
  destruct (importable w "huggingface_hub"), (whoami w) as [e|name];
    cbv [try_except bind print ret raise]; cbn [disk stdout];
    rewrite <- ?app_assoc; eauto.
Qed.

Lemma check_files_observer : observer (check_files w).
Proof. intros m. rewrite check_files_run. eauto. Qed.

Lemma check_python_deps_observer : observer (check_python_deps w).
Proof. intros m. rewrite check_python_deps_run. eauto. Qed.

Lemma check_model_conversion_observer : observer (check_model_conversion w).
Proof.
  intros m. destruct (present (disk m) (cwd w) model_dir) eqn:Hroot.
  - rewrite (check_model_conversion_found _ Hroot). eauto.
  - rewrite (check_model_conversion_not_found _ Hroot). eauto.
Qed.

End Checks.
End CheckSetupFacts.

(** ** The file system *)

Module FSFacts.
Import FS Spec.

Lemma preserved_refl fs : preserved fs fs.
Proof. intros p i H. eauto. Qed.

Lemma preserved_trans fs1 fs2 fs3 :
  preserved fs1 fs2 -> preserved fs2 fs3 -> preserved fs1 fs3.
Proof.
  intros H12 H23 p i H.
  destruct (H12 p i H) as (i2 & H2 & E2).
  destruct (H23 p i2 H2) as (i3 & H3 & E3).
  exists i3. split; [done | congruence].
Qed.

Lemma is_dir_inode_Dir i : is_dir_inode i = true -> i = Dir.
Proof. now destruct i. Qed.

Lemma preserved_dir fs fs' p :
  preserved fs fs' -> fs !! p = Some Dir -> fs' !! p = Some Dir.
Proof.
  intros H Hp. destruct (H p Dir Hp) as (i & Hi & E).
  now rewrite (is_dir_inode_Dir i E) in Hi.
Qed.

Lemma preserved_inode_at fs fs' d i :
  preserved fs fs' -> inode_at fs d = Some i ->
  exists i', inode_at fs' d = Some i' /\ is_dir_inode i' = is_dir_inode i.
Proof. destruct d; simpl; [ eauto | intros H; apply H ]. Qed.

(** A fresh directory and a regular file put where no directory was
    remove nothing. *)
Lemma preserved_insert_dir fs k :
  fs !! k = None -> preserved fs (<[k := Dir]> fs).
Proof.
  intros Hk p i Hp. exists i. split; [|done].
  rewrite lookup_insert_ne; [done | congruence].
Qed.

Lemma preserved_insert_reg fs k c :
  fs !! k <> Some Dir -> preserved fs (<[k := Reg c]> fs).
Proof.
  intros Hk p i Hp. destruct (decide (k = p)) as [->|Hne].
  - exists (Reg c). rewrite lookup_insert_eq. split; [done|].
    destruct i; [done | congruence].
  - exists i. now rewrite lookup_insert_ne.
Qed.

(** Resolution is stable under [preserved]: what resolved still resolves,
    to the same place and the same kind of object. *)
Lemma namei_preserved fs fs' wd p d i :
  preserved fs fs' -> namei fs wd p = inr (d, i) ->
  exists i', namei fs' wd p = inr (d, i') /\ is_dir_inode i' = is_dir_inode i.
Proof.
  intros Hpres. revert d i. induction p as [|c q IH]; intros d i; simpl.
  - destruct (inode_at fs wd) as [i0|] eqn:H0; [|done].
    intros [= <- <-]. destruct (preserved_inode_at _ _ _ _ Hpres H0) as (i' & -> & E).
    eauto.
  - destruct (namei fs wd q) as [e|[d0 [c0|]]] eqn:Hq; try done.
    destruct (IH _ _ eq_refl) as (i0 & -> & E0).
    rewrite (is_dir_inode_Dir _ E0).
    destruct (decide (c = "..")).
    + destruct (inode_at fs (tail d0)) as [i1|] eqn:H1; [|done].
      intros [= <- <-].
      destruct (preserved_inode_at _ _ _ _ Hpres H1) as (i' & -> & E). eauto.
    + destruct (fs !! (c :: d0)) as [i1|] eqn:H1; [|done].
      intros [= <- <-]. destruct (Hpres _ _ H1) as (i' & -> & E). eauto.
Qed.

Lemma namei_dir_preserved fs fs' wd p d :
  preserved fs fs' -> namei fs wd p = inr (d, Dir) ->
  namei fs' wd p = inr (d, Dir).
Proof.
  intros Hpres H. destruct (namei_preserved _ _ _ _ _ _ Hpres H) as (i & Hi & E).
  now rewrite (is_dir_inode_Dir i E) in Hi.
Qed.

Lemma directory_preserved fs fs' wd p :
  preserved fs fs' -> directory fs wd p = true -> directory fs' wd p = true.
Proof.
  unfold directory. intros Hpres.
  destruct (namei fs wd p) as [e|[d [c|]]] eqn:H; try done.
  now rewrite (namei_dir_preserved _ _ _ _ _ Hpres H).
Qed.

Lemma present_preserved fs fs' wd p :
  preserved fs fs' -> present fs wd p = true -> present fs' wd p = true.
Proof.
  unfold present. intros Hpres.
  destruct (namei fs wd p) as [e|[d i]] eqn:H; [done|].
  destruct (namei_preserved _ _ _ _ _ _ Hpres H) as (i' & -> & _). done.
Qed.

Lemma directory_present fs wd p : directory fs wd p = true -> present fs wd p = true.
Proof. unfold directory, present. now destruct (namei fs wd p) as [|[? [|]]]. Qed.

(** What a successful [mkdir] did. *)
Lemma mkdir_inr fs wd p fs' :
  mkdir fs wd p = inr fs' ->
  exists c q d, p = c :: q /\ namei fs wd q = inr (d, Dir) /\ c <> ".."
                /\ fs !! (c :: d) = None /\ fs' = <[c :: d := Dir]> fs.
Proof.
  destruct p as [|c q]; simpl; [done|].
  destruct (namei fs wd q) as [e|[d [c0|]]] eqn:Hq; try done.
  destruct (decide (c = "..")); [done|].
  destruct (fs !! (c :: d)) eqn:Hl; [done|].
  intros [= <-]. exists c, q, d. eauto 10.
Qed.

Lemma mkdir_preserved fs wd p fs' : mkdir fs wd p = inr fs' -> preserved fs fs'.
Proof.
  intros H. destruct (mkdir_inr _ _ _ _ H) as (c & q & d & -> & _ & _ & Hf & ->).
  now apply preserved_insert_dir.
Qed.

Lemma mkdir_directory fs wd p fs' :
  mkdir fs wd p = inr fs' -> directory fs' wd p = true.
Proof.
  intros H. pose proof (mkdir_preserved _ _ _ _ H) as Hpres.
  destruct (mkdir_inr _ _ _ _ H) as (c & q & d & -> & Hq & Hc & Hf & ->).
  unfold directory. simpl.
  rewrite (namei_dir_preserved _ _ _ _ _ Hpres Hq).
  rewrite decide_False by done. now rewrite lookup_insert_eq.
Qed.

(** [mkdir] on something that is already a directory. *)
Lemma mkdir_eexist fs wd p :
  directory fs wd p = true -> mkdir fs wd p = inl EEXIST.
Proof.
  unfold directory. destruct p as [|c q]; simpl; [done|].
  destruct (namei fs wd q) as [e|[d [c0|]]]; try done.
  destruct (decide (c = "..")); [done|].
  now destruct (fs !! (c :: d)).
Qed.

(** What a successful [write] did. *)
Lemma write_inr fs wd p c fs' :
  write fs wd p c = inr fs' ->
  exists name q d, p = name :: q /\ namei fs wd q = inr (d, Dir) /\ name <> ".."
                   /\ fs !! (name :: d) <> Some Dir
                   /\ fs' = <[name :: d := Reg c]> fs.
Proof.
  destruct p as [|name q]; simpl; [done|].
  destruct (namei fs wd q) as [e|[d [c0|]]] eqn:Hq; try done.
  destruct (decide (name = "..")); [done|].
  destruct (fs !! (name :: d)) as [[c1|]|] eqn:Hl; try done;
    intros [= <-]; exists name, q, d; repeat split; congruence.
Qed.

Lemma write_preserved fs wd p c fs' : write fs wd p c = inr fs' -> preserved fs fs'.
Proof.
  intros H. destruct (write_inr _ _ _ _ _ H) as (n & q & d & -> & _ & _ & Hf & ->).
  now apply preserved_insert_reg.
Qed.

(** Reading back what was written. *)
Lemma write_inode_of fs wd p c fs' :
  write fs wd p c = inr fs' -> inode_of fs' wd p = Some (Reg c).
Proof.
  intros H. pose proof (write_preserved _ _ _ _ _ H) as Hpres.
  destruct (write_inr _ _ _ _ _ H) as (n & q & d & -> & Hq & Hn & Hf & ->).
  unfold inode_of. simpl.
  rewrite (namei_dir_preserved _ _ _ _ _ Hpres Hq).
  rewrite decide_False by done. now rewrite lookup_insert_eq.
Qed.

(** A write leaves the other entries of the same directory alone. *)
Lemma write_sibling fs wd q name name' c fs' :
  write fs wd (name :: q) c = inr fs' -> name <> name' ->
  inode_of fs' wd (name' :: q) = inode_of fs wd (name' :: q).
Proof.
  intros H Hne. pose proof (write_preserved _ _ _ _ _ H) as Hpres.
  destruct (write_inr _ _ _ _ _ H) as (n & q' & d & [= <- <-] & Hq & Hn & Hf & ->).
  unfold inode_of. simpl.
  rewrite (namei_dir_preserved _ _ _ _ _ Hpres Hq), Hq.
  destruct (decide (name' = "..")).
  - destruct d as [|x [|y d]]; simpl; try done.
    rewrite lookup_insert_ne; [done|]. intros [= E1 E2].
    apply (f_equal length) in E2. simpl in E2. lia.
  - rewrite lookup_insert_ne; [done | congruence].
Qed.

End FSFacts.

(** ** [os] and [pathlib] on the machine *)

Module OsFacts.
Import FS Py World Os PurePath Run Spec FSFacts.

Lemma monotone_ret {A} (a : A) : monotone (ret a).
Proof. intros m r m' [= <- <-]. apply preserved_refl. Qed.

Lemma monotone_raise {A} e : monotone (@raise A e).
Proof. intros m r m' [= <- <-]. apply preserved_refl. Qed.

Lemma monotone_sys_exit {A} n : monotone (@sys_exit A n).
Proof. intros m r m' [= <- <-]. apply preserved_refl. Qed.

Lemma monotone_print s : monotone (print s).
Proof. intros m r m' [= <- <-]. apply preserved_refl. Qed.

Lemma monotone_bind {A B} (c : M A) (k : A -> M B) :
  monotone c -> (forall a, monotone (k a)) -> monotone (bind c k).
Proof.
  intros Hc Hk m r m'. unfold bind.
  destruct (c m) as [[a|e|n] m1] eqn:H1; specialize (Hc _ _ _ H1).
  - intros H2. eapply preserved_trans; [exact Hc | exact (Hk _ _ _ _ H2)].
  - now intros [= <- <-].
  - now intros [= <- <-].
Qed.

Lemma monotone_try {A} (c : M A) (h : exn -> option (M A)) :
  monotone c -> (forall e k, h e = Some k -> monotone k) ->
  monotone (try_except c h).
Proof.
  intros Hc Hh m r m'. unfold try_except.
  destruct (c m) as [[a|e|n] m1] eqn:H1; specialize (Hc _ _ _ H1).
  - now intros [= <- <-].
  - destruct (h e) as [k|] eqn:He.
    + intros H2. eapply preserved_trans; [exact Hc | exact (Hh _ _ He _ _ _ H2)].
    + now intros [= <- <-].
  - now intros [= <- <-].
Qed.

Lemma monotone_for_each {A S} (l : list A) (body : A -> S -> M S) :
  (forall x acc, monotone (body x acc)) ->
  forall acc, monotone (for_each l body acc).
Proof.
  intros Hb. induction l as [|x l IH]; intros acc; simpl.
  - apply monotone_ret.
  - apply monotone_bind; auto.
Qed.

Lemma monotone_if {A} (b : bool) (c1 c2 : M A) :
  monotone c1 -> monotone c2 -> monotone (if b then c1 else c2).
Proof. now destruct b. Qed.

Lemma monotone_observer {A} (c : M A) : observer c -> monotone c.
Proof.
  intros Hc m r m' H. destruct (Hc m) as (a & out & Ha).
  rewrite Ha in H. injection H as <- <-. apply preserved_refl.
Qed.

Lemma exitless_ret {A} (a : A) : exitless (ret a).
Proof. done. Qed.

Lemma exitless_raise {A} e : exitless (@raise A e).
Proof. done. Qed.

Lemma exitless_print s : exitless (print s).
Proof. done. Qed.

Lemma exitless_bind {A B} (c : M A) (k : A -> M B) :
  exitless c -> (forall a, exitless (k a)) -> exitless (bind c k).
Proof.
  intros Hc Hk m n m'. unfold bind.
  destruct (c m) as [[a|e|n1] m1] eqn:H1; [apply Hk | done |].
  now apply Hc in H1.
Qed.

Lemma exitless_try {A} (c : M A) (h : exn -> option (M A)) :
  exitless c -> (forall e k, h e = Some k -> exitless k) ->
  exitless (try_except c h).
Proof.
  intros Hc Hh m n m'. unfold try_except.
  destruct (c m) as [[a|e|n1] m1] eqn:H1; [done | |now apply Hc in H1].
  destruct (h e) as [k|] eqn:He; [exact (Hh _ _ He _ _ _) | done].
Qed.

Lemma exitless_for_each {A S} (l : list A) (body : A -> S -> M S) :
  (forall x acc, exitless (body x acc)) ->
  forall acc, exitless (for_each l body acc).
Proof.
  intros Hb. induction l as [|x l IH]; intros acc; simpl.
  - apply exitless_ret.
  - apply exitless_bind; auto.
Qed.

Lemma exitless_if {A} (b : bool) (c1 c2 : M A) :
  exitless c1 -> exitless c2 -> exitless (if b then c1 else c2).
Proof. now destruct b. Qed.

Lemma exitless_observer {A} (c : M A) : observer c -> exitless c.
Proof.
  intros Hc m n m' H. destruct (Hc m) as (a & out & Ha). congruence.
Qed.

Section WithCwd.
Variable wd : path.

Lemma is_dir_run p m : is_dir wd p m = (Ret (directory (disk m) wd p), m).
Proof.
  unfold is_dir, directory. now destruct (namei _ _ _) as [e|[d [c|]]].
Qed.

Lemma monotone_is_dir p : monotone (is_dir wd p).
Proof. intros m r m'. rewrite is_dir_run. intros [= <- <-]. apply preserved_refl. Qed.

Lemma monotone_os_mkdir p : monotone (os_mkdir wd p).
Proof.
  intros m r m'. unfold os_mkdir.
  destruct (FS.mkdir (disk m) wd p) as [e|fs'] eqn:H; intros [= <- <-].
  - apply preserved_refl.
  - exact (mkdir_preserved _ _ _ _ H).
Qed.

Lemma monotone_write_file p c : monotone (write_file wd p c).
Proof.
  intros m r m'. unfold write_file.
  destruct (FS.write (disk m) wd p c) as [e|fs'] eqn:H; intros [= <- <-].
  - apply preserved_refl.
  - exact (write_preserved _ _ _ _ _ H).
Qed.

Lemma monotone_mkdir_exists ok p e : monotone (mkdir_exists wd ok p e).
Proof.
  unfold mkdir_exists. apply monotone_bind; [apply monotone_is_dir|].
  intros d. apply monotone_if; [apply monotone_raise | apply monotone_ret].
Qed.

Lemma monotone_mkdir_single ok p : monotone (mkdir_single wd ok p).
Proof.
  unfold mkdir_single. apply monotone_try; [apply monotone_os_mkdir|].
  intros e k. destruct (is_FileNotFoundError e); [|destruct (is_OSError e)];
    intros [= <-]; auto using monotone_raise, monotone_mkdir_exists.
Qed.

Lemma monotone_mkdir parents ok p : monotone (mkdir wd parents ok p).
Proof.
  revert parents ok. induction p as [|c q IH]; intros parents ok; simpl;
    (apply monotone_try; [apply monotone_os_mkdir|]);
    intros e k; (destruct (is_FileNotFoundError e); [|destruct (is_OSError e)]);
    intros [= <-]; auto using monotone_raise, monotone_mkdir_exists.
  apply monotone_if; [apply monotone_raise|].
  apply monotone_bind; [apply IH|]. intros _. apply monotone_mkdir_single.
Qed.

Lemma monotone_save_pretrained s dir : monotone (save_pretrained wd s dir).
Proof.
  unfold save_pretrained. apply monotone_bind.
  - apply monotone_for_each. intros [name c] acc. apply monotone_write_file.
  - intros _. destruct (failure s); [apply monotone_raise | apply monotone_ret].
Qed.

Lemma monotone_rglob_size p : monotone (rglob_size wd p).
Proof.
  intros m r m'. unfold rglob_size.
  destruct (namei _ _ _) as [e|[d i]]; intros [= <- <-]; apply preserved_refl.
Qed.

(** [os.mkdir] either makes [p] a directory, or fails and changes
    nothing. *)
Lemma os_mkdir_ret p m m' :
  os_mkdir wd p m = (Ret tt, m') ->
  directory (disk m') wd p = true /\ stdout m' = stdout m.
Proof.
  unfold os_mkdir. destruct (FS.mkdir (disk m) wd p) as [e|fs'] eqn:H; [done|].
  intros [= <-]. split; [|done]. exact (mkdir_directory _ _ _ _ H).
Qed.

Lemma os_mkdir_raise p m e m' :
  os_mkdir wd p m = (Raise e, m') -> m' = m /\ is_OSError e = true.
Proof.
  unfold os_mkdir. destruct (FS.mkdir (disk m) wd p) as [er|fs'] eqn:H; [|done].
  now intros [= <- <-].
Qed.

Lemma exitless_os_mkdir p : exitless (os_mkdir wd p).
Proof. intros m n m'. unfold os_mkdir. now destruct (FS.mkdir _ _ _). Qed.

Lemma exitless_is_dir p : exitless (is_dir wd p).
Proof. intros m n m'. now rewrite is_dir_run. Qed.

Lemma exitless_write_file p c : exitless (write_file wd p c).
Proof. intros m n m'. unfold write_file. now destruct (FS.write _ _ _ _). Qed.

Lemma exitless_mkdir_exists ok p e : exitless (mkdir_exists wd ok p e).
Proof.
  unfold mkdir_exists. apply exitless_bind; [apply exitless_is_dir|].
  intros d. apply exitless_if; [apply exitless_raise | apply exitless_ret].
Qed.

Lemma exitless_mkdir_single ok p : exitless (mkdir_single wd ok p).
Proof.
  unfold mkdir_single. apply exitless_try; [apply exitless_os_mkdir|].
  intros e k. destruct (is_FileNotFoundError e); [|destruct (is_OSError e)];
    intros [= <-]; auto using exitless_raise, exitless_mkdir_exists.
Qed.

Lemma exitless_mkdir parents ok p : exitless (mkdir wd parents ok p).
Proof.
  revert parents ok. induction p as [|c q IH]; intros parents ok; simpl;
    (apply exitless_try; [apply exitless_os_mkdir|]);
    intros e k; (destruct (is_FileNotFoundError e); [|destruct (is_OSError e)]);
    intros [= <-]; auto using exitless_raise, exitless_mkdir_exists.
  apply exitless_if; [apply exitless_raise|].
  apply exitless_bind; [apply IH|]. intros _. apply exitless_mkdir_single.
Qed.

Lemma exitless_save_pretrained s dir : exitless (save_pretrained wd s dir).
Proof.
  unfold save_pretrained. apply exitless_bind.
  - apply exitless_for_each. intros [name c] acc. apply exitless_write_file.
  - intros _. destruct (failure s); [apply exitless_raise | apply exitless_ret].
Qed.

Lemma mkdir_exists_ret ok p e m m' :
  mkdir_exists wd ok p e m = (Ret tt, m') ->
  m' = m /\ directory (disk m) wd p = true.
Proof.
  unfold mkdir_exists, bind. rewrite is_dir_run.
  destruct ok, (directory (disk m) wd p); simpl; try done.
  now intros [= <-].
Qed.

Lemma mkdir_single_ret ok p m m' :
  mkdir_single wd ok p m = (Ret tt, m') ->
  directory (disk m') wd p = true /\ stdout m' = stdout m.
Proof.
  unfold mkdir_single, try_except.
  destruct (os_mkdir wd p m) as [[[]|e|n] m1] eqn:H.
  - intros [= <-]. exact (os_mkdir_ret _ _ _ H).
  - destruct (os_mkdir_raise _ _ _ _ H) as [-> He].
    destruct (is_FileNotFoundError e); [done|]. rewrite He.
    intros H2. destruct (mkdir_exists_ret _ _ _ _ _ H2) as [-> Hd]. done.
  - now apply exitless_os_mkdir in H.
Qed.

(** A [Path.mkdir] that returns has made [p] a directory and printed
    nothing. *)
Lemma mkdir_ret parents ok p : forall m m',
  mkdir wd parents ok p m = (Ret tt, m') ->
  directory (disk m') wd p = true /\ stdout m' = stdout m.
Proof.
  revert parents ok. induction p as [|c q IH]; intros parents ok m m'; simpl;
    unfold try_except;
    (destruct (os_mkdir wd _ m) as [[[]|e|n] m1] eqn:H;
     [ intros [= <-]; exact (os_mkdir_ret _ _ _ H)
     | destruct (os_mkdir_raise _ _ _ _ H) as [-> He];
       destruct (is_FileNotFoundError e);
       [| rewrite He; intros H2;
          destruct (mkdir_exists_ret _ _ _ _ _ H2) as [-> Hd]; done ]
     | now apply exitless_os_mkdir in H ]).
  - done.
  - destruct parents; simpl; [|done]. unfold bind.
    destruct (mkdir wd true true q m) as [[[]|e1|n1] m2] eqn:H1; try done.
    destruct (IH _ _ _ _ H1) as [_ Hout].
    intros H2. destruct (mkdir_single_ret _ _ _ _ H2) as [Hd Hout'].
    split; [done | congruence].
Qed.

(** On an existing directory, [mkdir(exist_ok=True)] is a no-op. *)
Lemma mkdir_existing parents p m :
  directory (disk m) wd p = true -> mkdir wd parents true p m = (Ret tt, m).
Proof.
  intros Hd.
  assert (Hos : os_mkdir wd p m = (Raise (os_error EEXIST p), m)).
  { unfold os_mkdir. now rewrite (FSFacts.mkdir_eexist _ _ _ Hd). }
  destruct p as [|c q]; simpl; unfold try_except; rewrite Hos; simpl;
    unfold mkdir_exists, bind; rewrite is_dir_run, Hd; reflexivity.
Qed.

End WithCwd.

Lemma exitless_import w name : exitless (import_module w name).
Proof.
  unfold import_module. destruct (importable w name);
    [apply exitless_ret | apply exitless_raise].
Qed.

Lemma monotone_import w name : monotone (import_module w name).
Proof.
  unfold import_module. destruct (importable w name);
    [apply monotone_ret | apply monotone_raise].
Qed.

Lemma exitless_call {A} (r : exn + A) : exitless (call r).
Proof. destruct r; [apply exitless_raise | apply exitless_ret]. Qed.

Lemma monotone_call {A} (r : exn + A) : monotone (call r).
Proof. destruct r; [apply monotone_raise | apply monotone_ret]. Qed.

End OsFacts.

Create HintDb monotone.
#[export] Hint Resolve OsFacts.monotone_ret OsFacts.monotone_raise
  OsFacts.monotone_sys_exit OsFacts.monotone_print OsFacts.monotone_bind
  OsFacts.monotone_try OsFacts.monotone_for_each OsFacts.monotone_if
  OsFacts.monotone_is_dir OsFacts.monotone_os_mkdir OsFacts.monotone_write_file
  OsFacts.monotone_mkdir OsFacts.monotone_save_pretrained
  OsFacts.monotone_rglob_size OsFacts.monotone_import OsFacts.monotone_call
  : monotone.

Create HintDb exitless.
#[export] Hint Resolve OsFacts.exitless_ret OsFacts.exitless_raise
  OsFacts.exitless_print OsFacts.exitless_bind OsFacts.exitless_try
  OsFacts.exitless_for_each OsFacts.exitless_if OsFacts.exitless_is_dir
  OsFacts.exitless_os_mkdir OsFacts.exitless_write_file OsFacts.exitless_mkdir
  OsFacts.exitless_save_pretrained OsFacts.exitless_import OsFacts.exitless_call
  : exitless.

(** ** The console does not steer a procedure *)

Module Frame.
Import FS Py World Os PurePath Run Spec.

Lemma framed_run {A} (c : M A) m r m' :
  framed c -> c m = (r, m') ->
  exists delta, stdout m' = stdout m ++ delta /\
    forall out, c (Machine (disk m) out) = (r, Machine (disk m') (out ++ delta)).
Proof.
  intros Hc H. destruct (Hc (disk m)) as (r0 & fs' & delta & Hrun).
  destruct m as [fs out0]. simpl in *. rewrite Hrun in H.
  injection H as <- <-. eauto.
Qed.

Lemma framed_ret {A} (a : A) : framed (ret a).
Proof. intros fs. exists (Ret a), fs, []. intros out. now rewrite app_nil_r. Qed.

Lemma framed_raise {A} e : framed (@raise A e).
Proof. intros fs. exists (Raise e), fs, []. intros out. now rewrite app_nil_r. Qed.

Lemma framed_sys_exit {A} n : framed (@sys_exit A n).
Proof. intros fs. exists (SysExit n), fs, []. intros out. now rewrite app_nil_r. Qed.

Lemma framed_print s : framed (print s).
Proof. intros fs. now exists (Ret tt), fs, [s]. Qed.

Lemma framed_bind {A B} (c : M A) (k : A -> M B) :
  framed c -> (forall a, framed (k a)) -> framed (bind c k).
Proof.
  intros Hc Hk fs. destruct (Hc fs) as (r & fs1 & d1 & H1). unfold bind.
  destruct r as [a|e|n].
  - destruct (Hk a fs1) as (r2 & fs2 & d2 & H2).
    exists r2, fs2, (d1 ++ d2). intros out.
    now rewrite H1, H2, app_assoc.
  - exists (Raise e), fs1, d1. intros out. now rewrite H1.
  - exists (SysExit n), fs1, d1. intros out. now rewrite H1.
Qed.

Lemma framed_try {A} (c : M A) (h : exn -> option (M A)) :
  framed c -> (forall e k, h e = Some k -> framed k) -> framed (try_except c h).
Proof.
  intros Hc Hh fs. destruct (Hc fs) as (r & fs1 & d1 & H1). unfold try_except.
  destruct r as [a|e|n].
  - exists (Ret a), fs1, d1. intros out. now rewrite H1.
  - destruct (h e) as [k|] eqn:He.
    + destruct (Hh _ _ He fs1) as (r2 & fs2 & d2 & H2).
      exists r2, fs2, (d1 ++ d2). intros out.
      now rewrite H1, He, H2, app_assoc.
    + exists (Raise e), fs1, d1. intros out. now rewrite H1, He.
  - exists (SysExit n), fs1, d1. intros out. now rewrite H1.
Qed.

Lemma framed_for_each {A S} (l : list A) (body : A -> S -> M S) :
  (forall x acc, framed (body x acc)) ->
  forall acc, framed (for_each l body acc).
Proof.
  intros Hb. induction l as [|x l IH]; intros acc; simpl.
  - apply framed_ret.
  - apply framed_bind; auto.
Qed.

Lemma framed_if {A} (b : bool) (c1 c2 : M A) :
  framed c1 -> framed c2 -> framed (if b then c1 else c2).
Proof. now destruct b. Qed.

(** A step that reads or updates the disk and prints nothing. *)
Lemma framed_silent {A} (f : gmap path inode -> result A * gmap path inode)
  (c : M A) :
  (forall m, c m = (fst (f (disk m)), Machine (snd (f (disk m))) (stdout m))) ->
  framed c.
Proof.
  intros Hc fs. exists (fst (f fs)), (snd (f fs)), []. intros out.
  now rewrite Hc, app_nil_r.
Qed.

Section WithCwd.
Variable wd : path.

Lemma framed_path_exists p : framed (path_exists wd p).
Proof.
  apply (framed_silent (fun fs => (Ret (present fs wd p), fs))).
  intros m. unfold path_exists, present. destruct m. simpl.
  now destruct (namei _ _ _).
Qed.

Lemma framed_is_dir p : framed (is_dir wd p).
Proof.
  apply (framed_silent (fun fs => (Ret (directory fs wd p), fs))).
  intros m. unfold is_dir, directory. destruct m. simpl.
  now destruct (namei _ _ _) as [e|[d [c|]]].
Qed.

Lemma framed_os_mkdir p : framed (os_mkdir wd p).
Proof.
  apply (framed_silent (fun fs => match FS.mkdir fs wd p with
                                  | inr fs' => (Ret tt, fs')
                                  | inl e => (Raise (os_error e p), fs)
                                  end)).
  intros m. unfold os_mkdir. destruct m. simpl. now destruct (FS.mkdir _ _ _).
Qed.

Lemma framed_write_file p c : framed (write_file wd p c).
Proof.
  apply (framed_silent (fun fs => match FS.write fs wd p c with
                                  | inr fs' => (Ret tt, fs')
                                  | inl e => (Raise (os_error e p), fs)
                                  end)).
  intros m. unfold write_file. destruct m. simpl. now destruct (FS.write _ _ _ _).
Qed.

Lemma framed_rglob_size p : framed (rglob_size wd p).
Proof.
  apply (framed_silent (fun fs => match namei fs wd p with
                                  | inr (root, _) => (Ret (tree_size fs root), fs)
                                  | inl _ => (Ret 0%N, fs)
                                  end)).
  intros m. unfold rglob_size. destruct m. simpl.
  now destruct (namei _ _ _) as [e|[d i]].
Qed.

Lemma framed_mkdir_exists ok p e : framed (mkdir_exists wd ok p e).
Proof.
  unfold mkdir_exists. apply framed_bind; [apply framed_is_dir|].
  intros d. apply framed_if; [apply framed_raise | apply framed_ret].
Qed.

Lemma framed_mkdir_single ok p : framed (mkdir_single wd ok p).
Proof.
  unfold mkdir_single. apply framed_try; [apply framed_os_mkdir|].
  intros e k. destruct (is_FileNotFoundError e); [|destruct (is_OSError e)];
    intros [= <-]; auto using framed_raise, framed_mkdir_exists.
Qed.

Lemma framed_mkdir parents ok p : framed (mkdir wd parents ok p).
Proof.
  revert parents ok. induction p as [|c q IH]; intros parents ok; simpl;
    (apply framed_try; [apply framed_os_mkdir|]);
    intros e k; (destruct (is_FileNotFoundError e); [|destruct (is_OSError e)]);
    intros [= <-]; auto using framed_raise, framed_mkdir_exists.
  apply framed_if; [apply framed_raise|].
  apply framed_bind; [apply IH|]. intros _. apply framed_mkdir_single.
Qed.

Lemma framed_save_pretrained s dir : framed (save_pretrained wd s dir).
Proof.
  unfold save_pretrained. apply framed_bind.
  - apply framed_for_each. intros [name c] acc. apply framed_write_file.
  - intros _. destruct (failure s); [apply framed_raise | apply framed_ret].
Qed.

End WithCwd.

Lemma framed_import w name : framed (import_module w name).
Proof.
  unfold import_module. destruct (importable w name);
    [apply framed_ret | apply framed_raise].
Qed.

Lemma framed_call {A} (r : exn + A) : framed (call r).
Proof. destruct r; [apply framed_raise | apply framed_ret]. Qed.

End Frame.

Create HintDb framed.
#[export] Hint Resolve Frame.framed_ret Frame.framed_raise Frame.framed_sys_exit
  Frame.framed_print Frame.framed_bind Frame.framed_try Frame.framed_for_each
  Frame.framed_if Frame.framed_path_exists Frame.framed_is_dir
  Frame.framed_os_mkdir Frame.framed_write_file Frame.framed_rglob_size
  Frame.framed_mkdir Frame.framed_save_pretrained Frame.framed_import
  Frame.framed_call : framed.

(** ** The converter's steps *)

Module ConvertGemmaFacts.
Import FS Py World Os PurePath Json Run Spec FSFacts OsFacts Frame ConvertGemma.

Section Steps.
Variable w : world.

Lemma check_dependencies_run m :
  check_dependencies w m
  = (Ret (bool_decide (missing_packages w = [])),
     Machine (disk m) (stdout m ++ packages_verdict (missing_packages w))).
Proof.
  unfold check_dependencies, missing_packages, required_packages.
  cbn [for_each List.filter]. unfold import_module, converter_probe.
  repeat match goal with
         | |- context [decide (?a = ?b)] =>
             let d := eval vm_compute in (bool_decide (a = b)) in
             match d with
             | true => rewrite (decide_True (P := a = b)) by reflexivity
             | false => rewrite (decide_False (P := a = b)) by discriminate
             end
         end.
  destruct (importable w "transformers"), (importable w "optimum.onnxruntime"),
    (importable w "torch"), (importable w "huggingface_hub");
    cbv [try_except bind print ret raise is_ImportError class_of negb
         packages_verdict bool_decide decide_rel];
    cbn [disk stdout app]; rewrite <- ?app_assoc; reflexivity.
Qed.

Lemma check_dependencies_framed : framed (check_dependencies w).
Proof.
  intros fs. eexists _, fs, _. intros out. now rewrite check_dependencies_run.
Qed.

Lemma setup_directories_ret m d m' :
  setup_directories w m = (Ret d, m') ->
  d = converter_root
  /\ preserved (disk m) (disk m')
  /\ layout_ready (disk m') (cwd w)
  /\ stdout m' = stdout m ++ [setup_line].
Proof.
  unfold setup_directories. fold converter_root. intros H.
  assert (Hmono : preserved (disk m) (disk m')).
  { revert H. apply monotone_bind; auto 10 with monotone. }
  unfold bind in H.
  destruct (mkdir (cwd w) true true converter_root m) as [[[]|?|?] m1] eqn:H1;
    try done.
  destruct (mkdir (cwd w) false true (converter_root // "onnx") m1)
    as [[[]|?|?] m2] eqn:H2; try done.
  destruct (mkdir (cwd w) false true (converter_root // "tokenizer") m2)
    as [[[]|?|?] m3] eqn:H3; try done.
  injection H as <- <-. cbn [disk stdout].
  destruct (mkdir_ret _ _ _ _ _ _ H1) as [D1 O1].
  destruct (mkdir_ret _ _ _ _ _ _ H2) as [D2 O2].
  destruct (mkdir_ret _ _ _ _ _ _ H3) as [D3 O3].
  pose proof (monotone_mkdir _ _ _ _ _ _ _ H2) as P2.
  pose proof (monotone_mkdir _ _ _ _ _ _ _ H3) as P3.
  repeat split; try done.
  - eapply directory_preserved; [exact P3|].
    eapply directory_preserved; [exact P2 | exact D1].
  - eapply directory_preserved; [exact P3 | exact D2].
  - now rewrite O3, O2, O1.
Qed.

(** On a disk that already has the layout, directory setup changes
    nothing and reports success. *)
Lemma setup_directories_ready m :
  layout_ready (disk m) (cwd w) ->
  setup_directories w m
  = (Ret converter_root, Machine (disk m) (stdout m ++ [setup_line])).
Proof.
  intros (D1 & D2 & D3). unfold setup_directories. fold converter_root.
  unfold bind.
  rewrite (mkdir_existing _ _ _ _ D1).
  rewrite (mkdir_existing _ _ _ _ D2).
  rewrite (mkdir_existing _ _ _ _ D3).
  reflexivity.
Qed.

Lemma setup_directories_monotone : monotone (setup_directories w).
Proof. unfold setup_directories. auto 10 with monotone. Qed.

Lemma setup_directories_framed : framed (setup_directories w).
Proof. unfold setup_directories. auto 10 with framed. Qed.

Lemma setup_directories_exitless : exitless (setup_directories w).
Proof. unfold setup_directories. auto 10 with exitless. Qed.

Lemma resolve_token_run m :
  resolve_token w m
  = (Ret (environ w !! "HF_TOKEN"),
     Machine (disk m) (stdout m ++ token_lines w)).
Proof.
  unfold resolve_token, token_lines.
  destruct (environ w !! "HF_TOKEN"); cbv [bind print ret]; cbn [disk stdout];
    rewrite <- ?app_assoc; reflexivity.
Qed.

Lemma convert_body_monotone d t : monotone (convert_body w d t).
Proof. unfold convert_body, json_dump. auto 20 with monotone. Qed.

Lemma convert_body_exitless d t : exitless (convert_body w d t).
Proof. unfold convert_body, json_dump. auto 20 with exitless. Qed.

Lemma convert_body_framed d t : framed (convert_body w d t).
Proof. unfold convert_body, json_dump. auto 20 with framed. Qed.

Lemma convert_handlers_run e :
  exists k, convert_handlers e = Some k /\
    forall m, k m = (Ret false, Machine (disk m) (stdout m ++ failure_lines e)).
Proof.
  unfold convert_handlers, failure_lines. destruct (is_ImportError e);
    eexists; (split; [reflexivity|]); intros m;
    cbv [bind print ret]; cbn [disk stdout]; rewrite <- ?app_assoc; reflexivity.
Qed.

(** An exception out of the [try] body is turned into [False]; the
    handler prints and touches nothing else. *)
Lemma convert_of_raise d t m e m_e :
  convert_body w d t m = (Raise e, m_e) ->
  convert_model_to_onnx w d t m
  = (Ret false, Machine (disk m_e) (stdout m_e ++ failure_lines e)).
Proof.
  intros H. unfold convert_model_to_onnx.
  rewrite (try_raise _ _ _ _ _ H).
  destruct (convert_handlers_run e) as (k & -> & Hk). apply Hk.
Qed.

Lemma convert_of_ret d t m b m' :
  convert_body w d t m = (Ret b, m') ->
  convert_model_to_onnx w d t m = (Ret b, m').
Proof. intros H. unfold convert_model_to_onnx. now rewrite (try_ret _ _ _ _ _ H). Qed.

(** The conversion step always returns a boolean. *)
Lemma convert_total d t m :
  exists b m', convert_model_to_onnx w d t m = (Ret b, m').
Proof.
  destruct (convert_body w d t m) as [[b|e|n] m'] eqn:H.
  - rewrite (convert_of_ret _ _ _ _ _ H). eauto.
  - rewrite (convert_of_raise _ _ _ _ _ H). eauto.
  - now apply convert_body_exitless in H.
Qed.

Lemma convert_true_inv d t m m' :
  convert_model_to_onnx w d t m = (Ret true, m') ->
  convert_body w d t m = (Ret true, m').
Proof.
  destruct (convert_body w d t m) as [[b|e|n] m1] eqn:H.
  - rewrite (convert_of_ret _ _ _ _ _ H). congruence.
  - rewrite (convert_of_raise _ _ _ _ _ H). congruence.
  - now apply convert_body_exitless in H.
Qed.

Lemma convert_model_to_onnx_monotone d t : monotone (convert_model_to_onnx w d t).
Proof.
  unfold convert_model_to_onnx. apply monotone_try; [apply convert_body_monotone|].
  intros e k. unfold convert_handlers. destruct (is_ImportError e);
    intros [= <-]; auto 10 with monotone.
Qed.

Lemma convert_model_to_onnx_framed d t : framed (convert_model_to_onnx w d t).
Proof.
  unfold convert_model_to_onnx. apply framed_try; [apply convert_body_framed|].
  intros e k. unfold convert_handlers. destruct (is_ImportError e);
    intros [= <-]; auto 10 with framed.
Qed.

Lemma write_file_ret p c m m' :
  write_file (cwd w) p c m = (Ret tt, m') ->
  FS.write (disk m) (cwd w) p c = inr (disk m') /\ stdout m' = stdout m.
Proof.
  unfold write_file. destruct (FS.write _ _ _ _) as [e|fs']; [done|].
  now intros [= <-].
Qed.

(** When the [try] body returns, it returns [True], both objects were
    loaded, and [config.json] holds the dumped descriptor built from
    the tokenizer that was loaded. *)
Lemma convert_body_ret d t m b m' :
  convert_body w d t m = (Ret b, m') ->
  b = true /\
  exists om tk,
    ort_from_pretrained w model_name t = inr om
    /\ tokenizer_from_pretrained w model_name t = inr tk
    /\ inode_of (disk m') (cwd w) (d // "config.json")
       = Some (Reg (Text (dumps (config (vocab_size tk))))).
Proof.
  unfold convert_body, bind, import_module, call, json_dump.
  destruct (importable w "optimum.onnxruntime"); [|done].
  destruct (importable w "transformers"); [|done].
  cbv [ret print]. cbn [disk stdout].
  destruct (ort_from_pretrained w model_name t) as [e|om]; [done|].
  destruct (tokenizer_from_pretrained w model_name t) as [e|tk]; [done|].
  cbv [raise]. cbn [disk stdout].
  destruct (save_pretrained _ (model_export om) _ _) as [[[]|?|?] m1]; try done.
  cbn [disk stdout].
  destruct (save_pretrained _ (tokenizer_export tk) _ _) as [[[]|?|?] m2]; try done.
  destruct (write_file _ _ _ m2) as [[[]|?|?] m3] eqn:Hw; try done.
  intros [= <- <-]. split; [done|]. exists om, tk. repeat split.
  cbn [disk]. destruct (write_file_ret _ _ _ _ Hw) as [Hfs _].
  exact (write_inode_of _ _ _ _ _ Hfs).
Qed.

Lemma create_browser_manifest_ret d m m' :
  create_browser_manifest w d m = (Ret tt, m') ->
  FS.write (disk m) (cwd w) (d // "manifest.json") (Text (dumps manifest))
  = inr (disk m').
Proof.
  unfold create_browser_manifest, bind, json_dump.
  destruct (write_file _ _ _ m) as [[[]|?|?] m1] eqn:Hw; try done.
  intros [= <-]. cbn [disk]. now destruct (write_file_ret _ _ _ _ Hw).
Qed.

Lemma create_browser_manifest_monotone d : monotone (create_browser_manifest w d).
Proof. unfold create_browser_manifest, json_dump. auto 10 with monotone. Qed.

Lemma create_browser_manifest_exitless d : exitless (create_browser_manifest w d).
Proof. unfold create_browser_manifest, json_dump. auto 10 with exitless. Qed.

Lemma create_browser_manifest_framed d : framed (create_browser_manifest w d).
Proof. unfold create_browser_manifest, json_dump. auto 10 with framed. Qed.

Lemma report_success_observer d : observer (report_success w d).
Proof.
  intros m. unfold report_success, bind, rglob_size. cbv [print]. cbn [disk stdout].
  destruct (namei _ _ _) as [e|[root i]]; cbn [disk stdout];
    rewrite <- ?app_assoc; eauto.
Qed.

End Steps.
End ConvertGemmaFacts.

Module MainFacts.
Import FS Py World Os PurePath Json Run Spec FSFacts OsFacts Frame ConvertGemma
  ConvertGemmaFacts.

Section Main.
Variable w : world.

(** A framed step run from a machine with the same disk. *)
Lemma framed_transfer {A} (c : M A) m r m' out :
  framed c -> c m = (r, m') ->
  exists out', c (Machine (disk m) out) = (r, Machine (disk m') out').
Proof.
  intros Hc H. destruct (framed_run _ _ _ _ Hc H) as (delta & _ & Hrun).
  eexists. apply Hrun.
Qed.

Lemma framed_back {A} (c : M A) m r fs' out out' :
  framed c -> c (Machine (disk m) out) = (r, Machine fs' out') ->
  exists m', c m = (r, m') /\ disk m' = fs'.
Proof.
  intros Hc H.
  destruct (framed_transfer c _ _ _ (stdout m) Hc H) as (o & Ho).
  cbn [disk] in Ho. destruct m as [fs o0]. cbn [disk stdout] in *. eauto.
Qed.

Lemma main_ending m r m' :
  main w m = (r, m') -> ending w m r (disk m').
Proof.
  unfold main, bind. cbv [print]. cbn [disk stdout].
  rewrite check_dependencies_run. cbn [disk stdout].
  destruct (missing_packages w) as [|pkg l] eqn:Hdeps.
  2:{ rewrite bool_decide_eq_false_2 by done. cbn [negb]. cbv [sys_exit].
      intros [= <- <-]. cbn [disk]. apply MissingPackages. congruence. }
  rewrite bool_decide_eq_true_2 by done. cbn [negb]. cbv [ret].
  match goal with
  | |- context [setup_directories w ?x] =>
      destruct (setup_directories w x) as [[d|e|n] [fs1 o1]] eqn:Hsetup
  end.
  3:{ now apply setup_directories_exitless in Hsetup. }
  2:{ destruct (framed_back _ m _ _ _ _ (setup_directories_framed w) Hsetup)
        as (m1 & H1 & <-).
      intros [= <- <-]. cbn [disk]. eapply SetupRaised; eauto. }
  destruct (framed_back _ m _ _ _ _ (setup_directories_framed w) Hsetup)
    as (m1 & H1 & <-).
  destruct (setup_directories_ret _ _ _ _ H1) as (-> & _).
  rewrite resolve_token_run. cbn [disk stdout].
  destruct (convert_total w converter_root (environ w !! "HF_TOKEN")
              (Machine (disk m1) (o1 ++ token_lines w))) as (b & [fs2 o2] & Hconv).
  rewrite Hconv.
  destruct (framed_back _ m1 _ _ _ _ (convert_model_to_onnx_framed w _ _) Hconv)
    as (m2 & H2 & <-).
  destruct b.
  2:{ cbv [sys_exit]. intros [= <- <-]. cbn [disk]. eapply ConversionFailed; eauto. }
  match goal with
  | |- context [create_browser_manifest w converter_root ?x] =>
      destruct (create_browser_manifest w converter_root x)
        as [[[]|e|n] [fs3 o3]] eqn:Hman
  end.
  3:{ now apply create_browser_manifest_exitless in Hman. }
  2:{ destruct (framed_back _ m2 _ _ _ _ (create_browser_manifest_framed w _) Hman)
        as (m3 & H3 & <-).
      intros [= <- <-]. cbn [disk]. eapply ManifestRaised; eauto. }
  destruct (framed_back _ m2 _ _ _ _ (create_browser_manifest_framed w _) Hman)
    as (m3 & H3 & <-).
  destruct (report_success_observer w converter_root (Machine (disk m3) o3))
    as ([] & out & ->).
  intros [= <- <-]. cbn [disk]. eapply Completed; eauto.
Qed.

End Main.
End MainFacts.

(** * The claims *)

Import FS Py World Os PurePath Json Run Spec FSFacts OsFacts Frame.
Import CheckSetupFacts ConvertGemmaFacts MainFacts.

(** ** Dependency lists *)

Lemma missing_packages_nil (w : world) :
  missing_packages w = [] <-> forallb (importable w) converter_probes = true.
Proof.
  unfold missing_packages, ConvertGemma.required_packages, converter_probes.
  cbn [List.filter forallb]. unfold converter_probe.
  repeat match goal with
         | |- context [decide (?a = ?b)] =>
             let d := eval vm_compute in (bool_decide (a = b)) in
             match d with
             | true => rewrite (decide_True (P := a = b)) by reflexivity
             | false => rewrite (decide_False (P := a = b)) by discriminate
             end
         end.
  destruct (importable w "transformers"), (importable w "optimum.onnxruntime"),
    (importable w "torch"), (importable w "huggingface_hub"); cbn; split;
    congruence.
Qed.

Lemma missing_deps_nil (w : world) :
  missing_deps w CheckSetup.deps = [] ->
  importable w "onnx" = true /\ importable w "onnxruntime" = true.
Proof.
  unfold missing_deps, CheckSetup.deps. cbn [List.filter].
  unfold verifier_probe.
  repeat match goal with
         | |- context [decide (?a = ?b)] =>
             let d := eval vm_compute in (bool_decide (a = b)) in
             match d with
             | true => rewrite (decide_True (P := a = b)) by reflexivity
             | false => rewrite (decide_False (P := a = b)) by discriminate
             end
         end.
  destruct (importable w "transformers"), (importable w "optimum.onnxruntime"),
    (importable w "torch"), (importable w "huggingface_hub"),
    (importable w "onnx"), (importable w "onnxruntime"); cbn; try done.
Qed.

(** C9. The converter's dependency check probes [transformers],
    [optimum.onnxruntime], [torch] and [huggingface_hub] and nothing
    else, the verifier's also [onnx] and [onnxruntime]: in every
    environment where the four import and [onnx] or [onnxruntime] does
    not, the converter's check returns [True] and the verifier's returns
    [False]. *)
Theorem C9_dependency_lists_differ (w : world) (m : machine) :
  forallb (importable w) converter_probes = true ->
  importable w "onnx" && importable w "onnxruntime" = false ->
  fst (ConvertGemma.check_dependencies w m) = Ret true
  /\ fst (CheckSetup.check_python_deps w m) = Ret false.
Proof.
  intros Hfour Honnx. split.
  - rewrite check_dependencies_run. cbn [fst].
    apply missing_packages_nil in Hfour. now rewrite Hfour.
  - rewrite check_python_deps_run. cbn [fst]. f_equal.
    apply bool_decide_eq_false_2. intros Hnil.
    apply missing_deps_nil in Hnil as [H1 H2]. now rewrite H1, H2 in Honnx.
Qed.

Lemma C9_witness :
  fst (ConvertGemma.check_dependencies Examples.without_onnx (Machine ∅ []))
  = Ret true
  /\ fst (CheckSetup.check_python_deps Examples.without_onnx (Machine ∅ []))
     = Ret false.
Proof.
  apply (C9_dependency_lists_differ Examples.without_onnx (Machine ∅ []));
    reflexivity.
Defined.

(** ** The verifier *)

Lemma check_hf_auth_run (w : world) (m : machine) :
  exists b out,
    CheckSetup.check_hf_auth w m
    = (Ret b, Machine (disk m)
                (stdout m ++ (nl +:+ "🔍 Checking Hugging Face authentication...")
                   :: out)).
Proof.
  unfold CheckSetup.check_hf_auth, import_module, call.
  destruct (importable w "huggingface_hub"), (whoami w) as [e|name];
    cbv [try_except bind print ret raise]; cbn [disk stdout];
    rewrite <- ?app_assoc; cbn [app]; eauto.
Qed.

(** C3. Whatever the four checks find, the verifier's [main] runs all
    four, returns normally (exit status zero, no [sys.exit], no uncaught
    exception), leaves the disk as it was and only adds lines to the
    console. *)
Theorem C3_verifier_always_returns (w : world) (m : machine) :
  exists out,
    CheckSetup.main w m = (Ret tt, Machine (disk m) (stdout m ++ out))
    /\ exit_status (fst (CheckSetup.main w m)) = 0
    /\ (forall h, In h check_headers -> In h out).
Proof.
  unfold CheckSetup.main, bind. cbv [print]. cbn [disk stdout].
  rewrite check_files_run. cbn [disk stdout].
  rewrite check_python_deps_run. cbn [disk stdout].
  match goal with
  | |- context [CheckSetup.check_hf_auth w ?x] =>
      destruct (check_hf_auth_run w x) as (c2 & o2 & ->)
  end.
  cbn [disk stdout].
  match goal with
  | |- context [CheckSetup.check_model_conversion w ?x] =>
      destruct (present (disk x) (cwd w) CheckSetup.model_dir) eqn:Hroot;
      [ rewrite (check_model_conversion_found w x Hroot)
      | rewrite (check_model_conversion_not_found w x Hroot) ]
  end;
    cbn [disk stdout];
    repeat match goal with
           | |- context [bool_decide ?P] => destruct (bool_decide P)
           end;
    destruct c2; cbn [andb negb]; cbv [ret]; cbn [disk stdout fst exit_status];
    rewrite <- ?app_assoc; cbn [app];
    (eexists; split; [reflexivity|]; split; [reflexivity|]);
    intros h [<-|[<-|[<-|[<-|[]]]]];
    repeat first [ left; reflexivity | right | apply in_or_app; right ].
Qed.

Lemma absent_from_spec fs wd base l f :
  In f (absent_from fs wd base l) <-> In f l /\ present fs wd (base // f) = false.
Proof.
  unfold absent_from. rewrite filter_In.
  now destruct (present fs wd (base // f)).
Qed.

(** C4, amended for the model-file list.  For the project-file list the
    check succeeds exactly when no listed file is absent, and otherwise
    prints the absent names, in list order, in its last line.  For the
    model-file list the same holds when the model root exists; when the
    root is absent the check fails with "Model directory not found" and
    names no file.  The names printed are exactly the listed files that
    do not exist. *)
Theorem C4_missing_files_named (w : world) (m : machine) :
  let missing := absent_from (disk m) (cwd w) [] CheckSetup.required_files in
  let missing_model :=
    absent_from (disk m) (cwd w) CheckSetup.model_dir
                CheckSetup.required_model_files in
  CheckSetup.check_files w m
  = (Ret (bool_decide (missing = [])),
     Machine (disk m)
       (stdout m ++ "🔍 Checking project files..."
          :: map (fun f => "✅ " +:+ f)
                 (present_in (disk m) (cwd w) [] CheckSetup.required_files)
          ++ [files_verdict missing]))
  /\ (present (disk m) (cwd w) CheckSetup.model_dir = true ->
      CheckSetup.check_model_conversion w m
      = (Ret (bool_decide (missing_model = [])),
         Machine (disk m)
           (stdout m ++ (nl +:+ "🔍 Checking model conversion status...")
              :: map (size_line (disk m) (cwd w))
                     (present_in (disk m) (cwd w) CheckSetup.model_dir
                                 CheckSetup.required_model_files)
              ++ model_verdict missing_model)))
  /\ (present (disk m) (cwd w) CheckSetup.model_dir = false ->
      CheckSetup.check_model_conversion w m
      = (Ret false,
         Machine (disk m)
           (stdout m ++ [ nl +:+ "🔍 Checking model conversion status...";
                          "❌ Model directory not found";
                          "Run: python3 convert_gemma.py" ])))
  /\ (forall f, In f missing <->
                In f CheckSetup.required_files
                /\ present (disk m) (cwd w) ([] // f) = false)
  /\ (forall f, In f missing_model <->
                In f CheckSetup.required_model_files
                /\ present (disk m) (cwd w) (CheckSetup.model_dir // f) = false).
Proof.
  intros missing missing_model. split; [|split; [|split; [|split]]].
  - apply check_files_run.
  - intros Hroot. now apply check_model_conversion_found.
  - intros Hroot. now apply check_model_conversion_not_found.
  - intros f. apply absent_from_spec.
  - intros f. apply absent_from_spec.
Qed.

Lemma C4_witness :
  fst (CheckSetup.check_model_conversion Examples.setup_world
         (Machine Examples.partial_disk []))
  = Ret false
  /\ model_verdict
       (absent_from Examples.partial_disk (cwd Examples.setup_world)
          CheckSetup.model_dir CheckSetup.required_model_files)
     = [ "❌ Model not converted. Missing: tokenizer/tokenizer.json, config.json, manifest.json";
         "Run: python3 convert_gemma.py" ].
Proof.
  destruct (C4_missing_files_named Examples.setup_world
              (Machine Examples.partial_disk [])) as (_ & H & _).
  rewrite H by (vm_compute; reflexivity). cbn [fst disk].
  split; vm_compute; reflexivity.
Defined.

(** C4 as stated fails for the model-file list when the model root
    itself is absent: all four files are missing, the check fails, and
    no file is named. *)
Lemma C4_counterexample :
  ~ names_missing_model_files Examples.setup_world (Machine Examples.repo_disk []).
Proof.
  unfold names_missing_model_files. intros H.
  assert (Hmissing : absent_from Examples.repo_disk (cwd Examples.setup_world)
                       CheckSetup.model_dir CheckSetup.required_model_files
                     = CheckSetup.required_model_files)
    by (vm_compute; reflexivity).
  cbn [disk] in H. rewrite Hmissing in H.
  destruct H as [_ H]; [discriminate|].
  rewrite check_model_conversion_not_found in H by (vm_compute; reflexivity).
  cbn in H. repeat destruct H as [H|H]; try discriminate H; exact H.
Qed.

(** ** Sizes in megabytes *)

Lemma round_half_even_nearest (n d : Z) :
  0 < d -> 2 * Z.abs (n - d * Fmt.round_half_even n d) <= d.
Proof.
  intros Hd. unfold Fmt.round_half_even.
  pose proof (Z.div_mod n d ltac:(lia)) as Hdm.
  pose proof (Z.mod_pos_bound n d Hd) as Hr.
  destruct (2 * (n mod d) <? d) eqn:H1; [apply Z.ltb_lt in H1; lia|].
  apply Z.ltb_ge in H1.
  destruct (d <? 2 * (n mod d)) eqn:H2; [apply Z.ltb_lt in H2; lia|].
  apply Z.ltb_ge in H2. destruct (Z.even (n / d)); lia.
Qed.

(** The double [size / (1024*1024)] is the quotient itself up to the
    largest size below [2^53]; one byte past [2^53] it no longer is. *)
Example true_div_exact :
  Fmt.is_quotient (Fmt.true_div 0 Fmt.MiB) 0 Fmt.MiB = true
  /\ Fmt.is_quotient (Fmt.true_div 262144 Fmt.MiB) 262144 Fmt.MiB = true
  /\ Fmt.is_quotient (Fmt.true_div 1100000000 Fmt.MiB) 1100000000 Fmt.MiB = true
  /\ Fmt.is_quotient (Fmt.true_div (2 ^ 53 - 1) Fmt.MiB) (2 ^ 53 - 1) Fmt.MiB
     = true
  /\ Fmt.is_quotient (Fmt.true_div (2 ^ 53 + 1) Fmt.MiB) (2 ^ 53 + 1) Fmt.MiB
     = false.
Proof. repeat split; vm_compute; reflexivity. Qed.

(** On a tie the even neighbour is taken. *)
Lemma round_half_even_tie (n d : Z) :
  0 < d -> 2 * (n mod d) = d -> Z.even (Fmt.round_half_even n d) = true.
Proof.
  intros Hd Htie. unfold Fmt.round_half_even.
  rewrite (proj2 (Z.ltb_ge _ _)) by lia. rewrite (proj2 (Z.ltb_ge _ _)) by lia.
  destruct (Z.even (n / d)) eqn:He; [done|].
  rewrite Z.even_add, He. reflexivity.
Qed.

Lemma filter_all {A} (f : A -> bool) (l : list A) :
  (forall x, In x l -> f x = true) -> List.filter f l = l.
Proof.
  induction l as [|x l IH]; intros H; simpl; [done|].
  rewrite (H x) by now left. f_equal. apply IH. intros y Hy. apply H. now right.
Qed.

Lemma filter_none {A} (f : A -> bool) (l : list A) :
  (forall x, In x l -> f x = false) -> List.filter f l = [].
Proof.
  induction l as [|x l IH]; intros H; simpl; [done|].
  rewrite (H x) by now left. apply IH. intros y Hy. apply H. now right.
Qed.

(** C5. When the model root and the four required paths exist (with
    sizes a double holds exactly), the model-conversion check returns
    [True] and prints, for each of the four files in order, its size in
    megabytes with one decimal: the decimal nearest to the byte size
    divided by 1,048,576. *)
Theorem C5_sizes_in_megabytes (w : world) (m : machine) :
  present (disk m) (cwd w) CheckSetup.model_dir = true ->
  (forall f, In f CheckSetup.required_model_files ->
             present (disk m) (cwd w) (CheckSetup.model_dir // f) = true) ->
  (forall f, In f CheckSetup.required_model_files ->
             Z.of_N (size_of (disk m) (cwd w) (CheckSetup.model_dir // f)) < 2 ^ 53) ->
  CheckSetup.check_model_conversion w m
  = (Ret true,
     Machine (disk m)
       (stdout m ++ (nl +:+ "🔍 Checking model conversion status...")
          :: map (size_line (disk m) (cwd w)) CheckSetup.required_model_files
          ++ [ "✅ Model converted and ready" ]))
  /\ forall f, In f CheckSetup.required_model_files ->
       let size := Z.of_N (size_of (disk m) (cwd w) (CheckSetup.model_dir // f)) in
       let tenths := Fmt.mb_tenths size in
       size_line (disk m) (cwd w) f
       = "✅ " +:+ f +:+ " ("
              +:+ (pretty (tenths / 10) +:+ "." +:+ pretty (tenths mod 10))
              +:+ " MB)"
       /\ 2 * Z.abs (10 * size - 1048576 * tenths) <= 1048576.
Proof.
  intros Hroot Hall Hsize. split.
  - rewrite (check_model_conversion_found w m Hroot).
    unfold absent_from, present_in.
    rewrite (filter_all _ _ Hall).
    rewrite filter_none; [reflexivity|].
    intros f Hf. now rewrite (Hall f Hf).
  - intros f Hf size tenths. split; [reflexivity|].
    apply (round_half_even_nearest (10 * size) 1048576). lia.
Qed.

Lemma C5_witness :
  fst (CheckSetup.check_model_conversion Examples.setup_world
         (Machine Examples.complete_disk []))
  = Ret true
  /\ map (size_line Examples.complete_disk (cwd Examples.setup_world))
         CheckSetup.required_model_files
     = [ "✅ onnx/model.onnx (0.2 MB)";
         "✅ tokenizer/tokenizer.json (31.5 MB)";
         "✅ config.json (0.0 MB)";
         "✅ manifest.json (0.8 MB)" ].
Proof.
  destruct (C5_sizes_in_megabytes Examples.setup_world
              (Machine Examples.complete_disk [])) as [H _].
  - vm_compute. reflexivity.
  - intros f [<-|[<-|[<-|[<-|[]]]]]; vm_compute; reflexivity.
  - intros f [<-|[<-|[<-|[<-|[]]]]]; vm_compute; reflexivity.
  - rewrite H. cbn [fst]. split; [reflexivity|]. vm_compute. reflexivity.
Defined.

(** ** The converter *)

(** C6. Directory setup is idempotent.  On a disk where the model root
    and its [onnx/] and [tokenizer/] subdirectories already exist it
    raises nothing and returns with the disk exactly as it was, whatever
    else the disk holds.  Any run that returns, a first run on an empty
    disk included, leaves those three directories in place and removes
    nothing, so running it again changes nothing. *)
Theorem C6_setup_directories_idempotent (w : world) (m : machine) :
  layout_ready (disk m) (cwd w) ->
  ConvertGemma.setup_directories w m
  = (Ret converter_root, Machine (disk m) (stdout m ++ [setup_line]))
  /\ forall m0 d m1,
       ConvertGemma.setup_directories w m0 = (Ret d, m1) ->
       layout_ready (disk m1) (cwd w)
       /\ preserved (disk m0) (disk m1)
       /\ ConvertGemma.setup_directories w m1
          = (Ret d, Machine (disk m1) (stdout m1 ++ [setup_line])).
Proof.
  intros Hready. split; [now apply setup_directories_ready|].
  intros m0 d m1 H.
  destruct (setup_directories_ret _ _ _ _ H) as (-> & Hpres & Hlay & _).
  repeat split; try done; try apply Hlay.
  now apply setup_directories_ready.
Qed.

Lemma C6_witness :
  ConvertGemma.setup_directories Examples.setup_world
    (Machine Examples.populated_disk [])
  = (Ret converter_root, Machine Examples.populated_disk [setup_line]).
Proof.
  refine (proj1 (C6_setup_directories_idempotent Examples.setup_world
                   (Machine Examples.populated_disk []) _)).
  repeat split; vm_compute; reflexivity.
Defined.

(** A first run on an empty disk creates [web], [web/models], the model
    root and its two subdirectories, and nothing else. *)
Example setup_directories_on_empty_disk :
  let w := World_ [] ∅ (fun _ => true) (inr "alice")
                  (fun _ _ => inr Examples.exported_model)
                  (fun _ _ => inr Examples.exported_tokenizer) in
  let first := ConvertGemma.setup_directories w (Machine ∅ []) in
  fst first = Ret converter_root
  /\ layout_ready (disk (snd first)) []
  /\ size (disk (snd first)) = 5%nat.
Proof. cbv zeta. repeat split; vm_compute; reflexivity. Qed.

Lemma join_manifest (d : path) : d // "manifest.json" = "manifest.json" :: d.
Proof. reflexivity. Qed.

Lemma join_config (d : path) : d // "config.json" = "config.json" :: d.
Proof. reflexivity. Qed.

(** C7. Whenever the conversion step reports success, [config.json]
    under the model root holds the dumped descriptor whose [vocab_size]
    field is the vocabulary size of the tokenizer that was loaded; the
    manifest write that follows in a successful run leaves it so. *)
Theorem C7_config_vocab_size (w : world) (d : path) (token : option string)
  (m : machine) :
  fst (ConvertGemma.convert_model_to_onnx w d token m) = Ret true ->
  let m1 := snd (ConvertGemma.convert_model_to_onnx w d token m) in
  exists tk,
    tokenizer_from_pretrained w ConvertGemma.model_name token = inr tk
    /\ inode_of (disk m1) (cwd w) (d // "config.json")
       = Some (Reg (Text (dumps (ConvertGemma.config (vocab_size tk)))))
    /\ Json.get "vocab_size" (ConvertGemma.config (vocab_size tk))
       = Some (JInt (vocab_size tk))
    /\ forall m2,
         ConvertGemma.create_browser_manifest w d m1 = (Ret tt, m2) ->
         inode_of (disk m2) (cwd w) (d // "config.json")
         = Some (Reg (Text (dumps (ConvertGemma.config (vocab_size tk))))).
Proof.
  destruct (ConvertGemma.convert_model_to_onnx w d token m) as [r m1] eqn:H.
  cbn [fst snd]. intros ->. apply convert_true_inv in H.
  destruct (convert_body_ret _ _ _ _ _ _ H) as (_ & om & tk & _ & Htk & Hcfg).
  exists tk. repeat split; try done.
  intros m2 Hman. apply create_browser_manifest_ret in Hman.
  rewrite join_manifest in Hman. rewrite join_config in *.
  rewrite (write_sibling _ _ _ _ _ _ _ Hman); [done | discriminate].
Qed.

Lemma C7_witness :
  exists tk,
    tokenizer_from_pretrained Examples.setup_world ConvertGemma.model_name
      (Some "hf_token") = inr tk
    /\ inode_of
         (disk (snd (ConvertGemma.convert_model_to_onnx Examples.setup_world
                       converter_root (Some "hf_token")
                       (Machine Examples.populated_disk []))))
         (cwd Examples.setup_world) (converter_root // "config.json")
       = Some (Reg (Text (dumps (ConvertGemma.config (vocab_size tk))))).
Proof.
  destruct (C7_config_vocab_size Examples.setup_world converter_root
              (Some "hf_token") (Machine Examples.populated_disk []))
    as (tk & H1 & H2 & _).
  - vm_compute. reflexivity.
  - exists tk. split; [exact H1 | exact H2].
Defined.

Lemma probes_importable (w : world) :
  forallb (importable w) converter_probes = true ->
  importable w "optimum.onnxruntime" = true /\ importable w "transformers" = true.
Proof.
  unfold converter_probes. cbn [forallb].
  destruct (importable w "transformers"), (importable w "optimum.onnxruntime");
    cbn; auto; discriminate.
Qed.

(** The [try] body up to an export call that raises. *)
Lemma convert_body_export_raises (w : world) (d : path) (t : option string)
  (e : exn) (m : machine) :
  forallb (importable w) converter_probes = true ->
  ort_from_pretrained w ConvertGemma.model_name t = inl e ->
  ConvertGemma.convert_body w d t m
  = (Raise e,
     Machine (disk m)
       (stdout m ++ [ "🔄 Starting conversion of google/gemma-3-270m...";
                      "📥 Downloading and converting model to ONNX..." ])).
Proof.
  intros Hfour Hexport. destruct (probes_importable w Hfour) as [H1 H2].
  unfold ConvertGemma.convert_body, bind, import_module, call.
  rewrite H1, H2, Hexport. cbv [ret print raise]. cbn [disk stdout].
  now rewrite <- app_assoc.
Qed.

Lemma setup_directories_at (w : world) (m : machine) (d : path) (m1 : machine)
  (out : list string) :
  ConvertGemma.setup_directories w m = (Ret d, m1) ->
  ConvertGemma.setup_directories w (Machine (disk m) out)
  = (Ret d, Machine (disk m1) (out ++ [setup_line])).
Proof.
  intros H.
  destruct (framed_run _ _ _ _ (setup_directories_framed w) H)
    as (delta & Hout & Hrun).
  destruct (setup_directories_ret _ _ _ _ H) as (_ & _ & _ & Hline).
  rewrite Hline in Hout. apply app_inv_head in Hout. subst delta. apply Hrun.
Qed.

(** C8. With [HF_TOKEN] unset the converter prints its warning and calls
    the export without a token; when the export then raises, the run
    ends there: the console shows the warning, the export being started
    and the failure, the exit status is one, and the disk is the one
    directory setup left, with the model root and both subdirectories
    in place. *)
Theorem C8_export_fails_after_setup (w : world) (m : machine) (e : exn) :
  forallb (importable w) converter_probes = true ->
  environ w !! "HF_TOKEN" = None ->
  ort_from_pretrained w ConvertGemma.model_name None = inl e ->
  fst (ConvertGemma.setup_directories w m) = Ret converter_root ->
  let m1 := snd (ConvertGemma.setup_directories w m) in
  ConvertGemma.main w m
  = (SysExit 1,
     Machine (disk m1)
       (stdout m
          ++ [ "🚀 Gemma 3 270M to ONNX Converter";
               repeat_str "=" 50;
               "✅ All required packages are installed";
               setup_line;
               "⚠️  No HF_TOKEN found. You may need to authenticate:";
               "   huggingface-cli login";
               "   or set HF_TOKEN environment variable";
               "🔄 Starting conversion of google/gemma-3-270m...";
               "📥 Downloading and converting model to ONNX..." ]
          ++ failure_lines e
          ++ [ nl +:+ "❌ Conversion failed. Please check the error messages above." ]))
  /\ layout_ready (disk m1) (cwd w).
Proof.
  intros Hfour Htoken Hexport Hsetup m1. subst m1.
  destruct (ConvertGemma.setup_directories w m) as [r m1] eqn:H.
  cbn [fst snd] in *. subst r.
  destruct (setup_directories_ret _ _ _ _ H) as (_ & _ & Hlay & _).
  split; [|exact Hlay].
  unfold ConvertGemma.main, bind. cbv [print]. cbn [disk stdout].
  rewrite check_dependencies_run. cbn [disk stdout].
  rewrite (proj2 (missing_packages_nil w) Hfour).
  rewrite bool_decide_eq_true_2 by done. cbn [negb]. cbv [ret].
  rewrite (setup_directories_at _ _ _ _ _ H).
  rewrite resolve_token_run. cbn [disk stdout]. rewrite Htoken.
  rewrite (convert_of_raise _ _ _ _ _ _
             (convert_body_export_raises w _ _ e _ Hfour Hexport)).
  cbv [sys_exit]. cbn [disk stdout]. unfold token_lines. rewrite Htoken.
  cbn [packages_verdict]. rewrite <- !app_assoc. reflexivity.
Qed.

Lemma C8_witness :
  exit_status
    (fst (ConvertGemma.main Examples.anonymous_world
            (Machine Examples.repo_disk []))) = 1
  /\ layout_ready
       (disk (snd (ConvertGemma.setup_directories Examples.anonymous_world
                     (Machine Examples.repo_disk []))))
       (cwd Examples.anonymous_world).
Proof.
  destruct (C8_export_fails_after_setup Examples.anonymous_world
              (Machine Examples.repo_disk []) Examples.gated) as [H1 H2];
    try (vm_compute; reflexivity).
  rewrite H1. split; [reflexivity | exact H2].
Defined.

Lemma ending_after_raise (w : world) (m : machine) (r : result unit)
  (fs' : gmap path inode) (m1 : machine) (e : exn) (m_e : machine) :
  ConvertGemma.setup_directories w m = (Ret converter_root, m1) ->
  ConvertGemma.convert_body w converter_root (environ w !! "HF_TOKEN") m1
  = (Raise e, m_e) ->
  ending w m r fs' ->
  missing_packages w = [] ->
  r = SysExit 1 /\ fs' = disk m_e.
Proof.
  intros H1 H2 Hend Hdeps. pose proof (convert_of_raise _ _ _ _ _ _ H2) as Hconv.
  destruct Hend as [Hd | e0 m1' Hd Hs | m1' m2 Hd Hs Hc
                   | m1' m2 e0 m3 Hd Hs Hc Hm | m1' m2 m3 Hd Hs Hc Hm].
  - done.
  - congruence.
  - rewrite H1 in Hs. injection Hs as <-. rewrite Hconv in Hc.
    injection Hc as <-. done.
  - rewrite H1 in Hs. injection Hs as <-. congruence.
  - rewrite H1 in Hs. injection Hs as <-. congruence.
Qed.

(** C10. When the [try] body of the conversion raises, whether in the
    model export, the tokenizer export or the descriptor write, the
    handler only prints: the run exits with status one on exactly the
    disk the exception left.  Nothing that directory setup found or
    created, and nothing written before the exception, has been removed,
    and the model root and its subdirectories are still directories. *)
Theorem C10_failed_conversion_deletes_nothing (w : world) (m : machine)
  (e : exn) :
  forallb (importable w) converter_probes = true ->
  fst (ConvertGemma.setup_directories w m) = Ret converter_root ->
  let m1 := snd (ConvertGemma.setup_directories w m) in
  fst (ConvertGemma.convert_body w converter_root (environ w !! "HF_TOKEN") m1)
  = Raise e ->
  let m_e :=
    snd (ConvertGemma.convert_body w converter_root (environ w !! "HF_TOKEN") m1)
  in
  fst (ConvertGemma.main w m) = SysExit 1
  /\ disk (snd (ConvertGemma.main w m)) = disk m_e
  /\ preserved (disk m) (disk m1)
  /\ preserved (disk m1) (disk m_e)
  /\ layout_ready (disk m_e) (cwd w).
Proof.
  intros Hfour Hsetup m1 Hbody m_e. subst m1 m_e.
  destruct (ConvertGemma.setup_directories w m) as [r m1] eqn:H1.
  cbn [fst snd] in *. subst r.
  destruct (ConvertGemma.convert_body w converter_root _ m1) as [r m_e] eqn:H2.
  cbn [fst snd] in *. subst r.
  destruct (setup_directories_ret _ _ _ _ H1) as (_ & Hp1 & (D1 & D2 & D3) & _).
  pose proof (convert_body_monotone _ _ _ _ _ _ H2) as Hp2.
  assert (Hdeps : missing_packages w = []) by now apply missing_packages_nil.
  destruct (ConvertGemma.main w m) as [r m'] eqn:Hmain.
  apply main_ending in Hmain. cbn [fst snd].
  destruct (ending_after_raise _ _ _ _ _ _ _ H1 H2 Hmain Hdeps) as [-> ->].
  repeat split; try done;
    (eapply directory_preserved; [exact Hp2 | done]).
Qed.

Lemma C10_witness :
  fst (ConvertGemma.main Examples.broken_world (Machine Examples.repo_disk []))
  = SysExit 1
  /\ present
       (disk (snd (ConvertGemma.main Examples.broken_world
                     (Machine Examples.repo_disk []))))
       (cwd Examples.broken_world) (converter_root // "onnx/model.onnx") = true
  /\ present
       (disk (snd (ConvertGemma.main Examples.broken_world
                     (Machine Examples.repo_disk []))))
       (cwd Examples.broken_world) (converter_root // "tokenizer/tokenizer.json")
     = false.
Proof.
  destruct (C10_failed_conversion_deletes_nothing Examples.broken_world
              (Machine Examples.repo_disk [])
              (Exn OtherError "disk quota exceeded")) as (H & _);
    try (vm_compute; reflexivity).
  split; [exact H|]. split; vm_compute; reflexivity.
Defined.

(** C2, amended.  The converter exits non-zero exactly when its
    dependency check fails, directory setup raises, the conversion step
    reports failure, or writing the manifest raises; the status is then
    one.  In every other run it exits zero. *)
Theorem C2_exit_status (w : world) (m : machine) :
  (exit_status (fst (ConvertGemma.main w m)) <> 0
   <-> dependency_check_fails w m \/ setup_raises w m
       \/ conversion_fails w m \/ manifest_raises w m)
  /\ (exit_status (fst (ConvertGemma.main w m)) = 0
      \/ exit_status (fst (ConvertGemma.main w m)) = 1).
Proof.
  destruct (ConvertGemma.main w m) as [r m'] eqn:Hmain.
  apply main_ending in Hmain. cbn [fst].
  unfold dependency_check_fails, setup_raises, conversion_fails, manifest_raises.
  rewrite check_dependencies_run. cbn [fst].
  destruct Hmain as [Hd | e0 m1 Hd Hs | m1 m2 Hd Hs Hc
                    | m1 m2 e0 m3 Hd Hs Hc Hm | m1 m2 m3 Hd Hs Hc Hm];
    cbn [exit_status]; (split; [|auto]).
  - split; [intros _ | done]. left. now rewrite bool_decide_eq_false_2.
  - split; [intros _ | done]. right. left. exists e0. now rewrite Hs.
  - split; [intros _ | done]. right. right. left.
    exists converter_root, m1. now rewrite Hc.
  - split; [intros _ | done]. right. right. right.
    exists converter_root, m1, m2, e0. now rewrite Hm.
  - split; [done|]. rewrite bool_decide_eq_true_2 by done.
    intros [H | [[e H] | [(d & n1 & H1 & H2) | (d & n1 & n2 & e & H1 & H2 & H3)]]].
    + discriminate.
    + rewrite Hs in H. discriminate.
    + rewrite Hs in H1. injection H1 as <- <-. rewrite Hc in H2. discriminate.
    + rewrite Hs in H1. injection H1 as <- <-. rewrite Hc in H2.
      injection H2 as <-. rewrite Hm in H3. discriminate.
Qed.

(** C2 as stated fails: with every dependency installed and a conversion
    that succeeds, a model root in which [manifest.json] is a directory
    makes the manifest write raise, and the process exits with status
    one. *)
Lemma C2_counterexample :
  ~ exits_nonzero_iff_deps_or_conversion Examples.setup_world
      (Machine Examples.manifest_dir_disk []).
Proof.
  unfold exits_nonzero_iff_deps_or_conversion. intros [H _].
  destruct H as [H | (d & m1 & H1 & H2)].
  - vm_compute. discriminate.
  - vm_compute in H. discriminate.
  - pose proof (f_equal fst H1) as Hd. pose proof (f_equal snd H1) as Hm.
    cbn [fst snd] in Hd, Hm. subst m1.
    vm_compute in Hd. injection Hd as <-.
    vm_compute in H2. discriminate.
Qed.

(** ** The two tools together *)

(** C1 at a concrete checkout.  The converter, run in [/repo/setup] with
    everything installed and a token, exits zero and leaves the four
    required files under [/repo/web/models/gemma-3-270m-onnx].  The
    verifier run in the same directory looks for
    [/repo/setup/models/gemma-3-270m-onnx] and reports the model
    directory as not found; only a verifier run from [/repo/web] finds
    the files. *)
Lemma C1_verifier_looks_elsewhere :
  let run := ConvertGemma.main Examples.setup_world (Machine Examples.repo_disk []) in
  let after := Machine (disk (snd run)) [] in
  exit_status (fst run) = 0
  /\ forallb (fun f => present (disk after) (cwd Examples.setup_world)
                               (converter_root // f))
             CheckSetup.required_model_files = true
  /\ fst (CheckSetup.check_model_conversion Examples.setup_world after)
     = Ret false
  /\ stdout (snd (CheckSetup.check_model_conversion Examples.setup_world after))
     = [ nl +:+ "🔍 Checking model conversion status...";
         "❌ Model directory not found";
         "Run: python3 convert_gemma.py" ]
  /\ fst (CheckSetup.check_model_conversion Examples.web_world after)
     = Ret true.
Proof. cbv zeta. repeat split; vm_compute; reflexivity. Qed.

(** * Further properties of the two tools *)

(** ** The verifier *)

Lemma check_hf_auth_cases (w : world) (m : machine) :
  CheckSetup.check_hf_auth w m
  = match identity w with
    | inr name =>
        (Ret true,
         Machine (disk m)
           (stdout m ++ [ nl +:+ "🔍 Checking Hugging Face authentication...";
                          "✅ Authenticated as: " +:+ name ]))
    | inl e =>
        (Ret false,
         Machine (disk m)
           (stdout m ++ [ nl +:+ "🔍 Checking Hugging Face authentication...";
                          "❌ Not authenticated: " +:+ message e;
                          "Run: huggingface-cli login" ]))
    end.
Proof.
  unfold CheckSetup.check_hf_auth, identity, import_module, call.
  destruct (importable w "huggingface_hub"); [destruct (whoami w) as [e|name]|];
    cbv [try_except bind print ret raise]; cbn [disk stdout];
    rewrite <- ?app_assoc; reflexivity.
Qed.

(** The authentication check returns [True] exactly when
    [huggingface_hub] imports and [whoami] answers; every exception on
    the way, a missing hub library included, is reported as "Not
    authenticated" with its message, and the check returns [False]. *)
Theorem check_hf_auth_outcome (w : world) (m : machine) :
  CheckSetup.check_hf_auth w m
  = match identity w with
    | inr name =>
        (Ret true,
         Machine (disk m)
           (stdout m ++ [ nl +:+ "🔍 Checking Hugging Face authentication...";
                          "✅ Authenticated as: " +:+ name ]))
    | inl e =>
        (Ret false,
         Machine (disk m)
           (stdout m ++ [ nl +:+ "🔍 Checking Hugging Face authentication...";
                          "❌ Not authenticated: " +:+ message e;
                          "Run: huggingface-cli login" ]))
    end.
Proof. apply check_hf_auth_cases. Qed.

Lemma missing_deps_spec (w : world) (l : list string) (dep : string) :
  In dep (missing_deps w l)
  <-> In dep l /\ importable w (verifier_probe dep) = false.
Proof.
  unfold missing_deps. rewrite filter_In.
  now destruct (importable w (verifier_probe dep)).
Qed.

Lemma deps_ok_probes (w : world) :
  deps_ok w = forallb (importable w) verifier_probes.
Proof.
  unfold deps_ok, missing_deps, CheckSetup.deps, verifier_probes.
  cbn [List.filter forallb]. unfold verifier_probe.
  repeat match goal with
         | |- context [decide (?a = ?b)] =>
             let d := eval vm_compute in (bool_decide (a = b)) in
             match d with
             | true => rewrite (decide_True (P := a = b)) by reflexivity
             | false => rewrite (decide_False (P := a = b)) by discriminate
             end
         end.
  destruct (importable w "transformers"), (importable w "optimum.onnxruntime"),
    (importable w "torch"), (importable w "huggingface_hub"),
    (importable w "onnx"), (importable w "onnxruntime"); reflexivity.
Qed.

(** The verifier's dependency check returns [True] exactly when all six
    modules import, [optimum] being judged by [optimum.onnxruntime]; it
    prints one marked line per dependency in list order, and when some
    are missing it names exactly those, by their listed names. *)
Theorem check_python_deps_outcome (w : world) (m : machine) :
  CheckSetup.check_python_deps w m
  = (Ret (forallb (importable w) verifier_probes),
     Machine (disk m)
       (stdout m ++ (nl +:+ "🔍 Checking Python dependencies...")
          :: map (dep_line w) CheckSetup.deps
          ++ deps_verdict (missing_deps w CheckSetup.deps)))
  /\ (forall dep, In dep (missing_deps w CheckSetup.deps)
                  <-> In dep CheckSetup.deps
                      /\ importable w (verifier_probe dep) = false)
  /\ verifier_probe "optimum" = "optimum.onnxruntime".
Proof.
  split; [|split; [intros dep; apply missing_deps_spec | reflexivity]].
  rewrite check_python_deps_run. now rewrite <- deps_ok_probes.
Qed.

Lemma check_model_conversion_outcome (w : world) (m : machine) :
  exists out,
    CheckSetup.check_model_conversion w m
    = (Ret (model_ok w (disk m)), Machine (disk m) (stdout m ++ out)).
Proof.
  unfold model_ok. destruct (present (disk m) (cwd w) CheckSetup.model_dir) eqn:Hroot.
  - rewrite (check_model_conversion_found w m Hroot). eauto.
  - rewrite (check_model_conversion_not_found w m Hroot). eauto.
Qed.

Lemma check_files_outcome (w : world) (m : machine) :
  exists out,
    CheckSetup.check_files w m
    = (Ret (files_ok w (disk m)), Machine (disk m) (stdout m ++ out)).
Proof. rewrite check_files_run. unfold files_ok. eauto. Qed.

Lemma check_python_deps_short (w : world) (m : machine) :
  exists out,
    CheckSetup.check_python_deps w m
    = (Ret (deps_ok w), Machine (disk m) (stdout m ++ out)).
Proof. rewrite check_python_deps_run. unfold deps_ok. eauto. Qed.

Lemma check_hf_auth_short (w : world) (m : machine) :
  exists out,
    CheckSetup.check_hf_auth w m
    = (Ret (auth_ok w), Machine (disk m) (stdout m ++ out)).
Proof.
  rewrite check_hf_auth_cases. unfold auth_ok.
  destruct (identity w); eauto.
Qed.

(** The verifier's closing summary follows the four outcomes: it
    announces a complete setup exactly when all four checks passed, and
    otherwise prints a remediation block for each of the dependency,
    authentication and conversion checks that failed, in that order, and
    none for missing project files. *)
Theorem verifier_summary (w : world) (m : machine) :
  exists report,
    CheckSetup.main w m
    = (Ret tt,
       Machine (disk m)
         (stdout m
            ++ [ "🚀 Gemma 3 270M Project Setup Verification";
                 repeat_str "=" 50 ]
            ++ report
            ++ [ nl +:+ repeat_str "=" 50 ]
            ++ summary (files_ok w (disk m)) (deps_ok w) (auth_ok w)
                       (model_ok w (disk m)))).
Proof.
  unfold CheckSetup.main.
  rewrite (bind_ret _ _ _ _ _ (print_run _ _)).
  rewrite (bind_ret _ _ _ _ _ (print_run _ _)). cbn [disk stdout].
  match goal with
  | |- context [bind (CheckSetup.check_files w) _ ?x] =>
      destruct (check_files_outcome w x) as (o0 & H0)
  end.
  rewrite (bind_ret _ _ _ _ _ H0). cbn [disk] in *.
  match goal with
  | |- context [bind (CheckSetup.check_python_deps w) _ ?x] =>
      destruct (check_python_deps_short w x) as (o1 & H1)
  end.
  rewrite (bind_ret _ _ _ _ _ H1). cbn [disk] in *.
  match goal with
  | |- context [bind (CheckSetup.check_hf_auth w) _ ?x] =>
      destruct (check_hf_auth_short w x) as (o2 & H2)
  end.
  rewrite (bind_ret _ _ _ _ _ H2). cbn [disk] in *.
  match goal with
  | |- context [bind (CheckSetup.check_model_conversion w) _ ?x] =>
      destruct (check_model_conversion_outcome w x) as (o3 & H3)
  end.
  rewrite (bind_ret _ _ _ _ _ H3). cbn [disk stdout] in *.
  rewrite (bind_ret _ _ _ _ _ (print_run _ _)). cbn [disk stdout].
  exists (o0 ++ o1 ++ o2 ++ o3).
  destruct (files_ok w (disk m)), (deps_ok w), (auth_ok w), (model_ok w (disk m));
    cbn [andb negb summary]; cbv [bind print ret]; cbn [disk stdout];
    rewrite <- ?app_assoc; reflexivity.
Qed.

(** ** The converter *)

Lemma missing_packages_spec (w : world) (p : string) :
  In p (missing_packages w)
  <-> In p ConvertGemma.required_packages
      /\ importable w (converter_probe p) = false.
Proof.
  unfold missing_packages. rewrite filter_In.
  now destruct (importable w (converter_probe p)).
Qed.

(** When a required package does not import, the converter stops before
    touching the disk: it prints the missing packages, exactly those
    whose probe fails, with the [pip install] line for them, and exits
    with status one. *)
Theorem missing_package_stops_converter (w : world) (m : machine) :
  missing_packages w <> [] ->
  ConvertGemma.main w m
  = (SysExit 1,
     Machine (disk m)
       (stdout m
          ++ [ "🚀 Gemma 3 270M to ONNX Converter";
               repeat_str "=" 50;
               "❌ Missing required packages: "
                 +:+ String.concat ", " (missing_packages w);
               "Please install them with:";
               "pip install " +:+ String.concat " " (missing_packages w) ]))
  /\ forall p, In p (missing_packages w)
               <-> In p ConvertGemma.required_packages
                   /\ importable w (converter_probe p) = false.
Proof.
  intros Hmissing. split; [|apply missing_packages_spec].
  unfold ConvertGemma.main.
  rewrite (bind_ret _ _ _ _ _ (print_run _ _)).
  rewrite (bind_ret _ _ _ _ _ (print_run _ _)).
  rewrite (bind_ret _ _ _ _ _ (check_dependencies_run _ _)).
  rewrite bool_decide_eq_false_2 by done. cbn [negb disk stdout].
  destruct (missing_packages w) as [|p l]; [done|].
  cbv [bind sys_exit packages_verdict]. rewrite <- !app_assoc. reflexivity.
Qed.

Lemma missing_package_stops_converter_witness :
  exit_status
    (fst (ConvertGemma.main Examples.without_torch (Machine Examples.repo_disk [])))
  = 1
  /\ missing_packages Examples.without_torch = ["torch"].
Proof.
  destruct (missing_package_stops_converter Examples.without_torch
              (Machine Examples.repo_disk [])) as [H _].
  - vm_compute. discriminate.
  - rewrite H. split; [reflexivity | vm_compute; reflexivity].
Defined.

Lemma mkdir_eexist_any fs wd p i :
  inode_of fs wd p = Some i -> FS.mkdir fs wd p = inl EEXIST.
Proof.
  unfold inode_of. destruct p as [|c q]; simpl; [done|].
  destruct (namei fs wd q) as [e|[d [c0|]]]; try done.
  destruct (decide (c = "..")); [done|].
  now destruct (fs !! (c :: d)).
Qed.

Lemma directory_inode_of fs wd p c :
  inode_of fs wd p = Some (Reg c) -> directory fs wd p = false.
Proof.
  unfold inode_of, directory.
  destruct (namei fs wd p) as [e|[d [c0|]]]; congruence.
Qed.

(** When the model root exists but is a regular file, directory setup
    raises [FileExistsError] for it and changes nothing; nothing catches
    the exception, so the converter ends with status one before any
    download. *)
Theorem setup_directories_root_is_file (w : world) (m : machine) (c : content) :
  forallb (importable w) converter_probes = true ->
  inode_of (disk m) (cwd w) converter_root = Some (Reg c) ->
  ConvertGemma.setup_directories w m
  = (Raise (os_error EEXIST converter_root), m)
  /\ ConvertGemma.main w m
     = (Raise (os_error EEXIST converter_root),
        Machine (disk m)
          (stdout m ++ [ "🚀 Gemma 3 270M to ONNX Converter";
                         repeat_str "=" 50;
                         "✅ All required packages are installed" ])).
Proof.
  intros Hfour Hroot.
  assert (Hsetup : forall m0, disk m0 = disk m ->
            ConvertGemma.setup_directories w m0
            = (Raise (os_error EEXIST converter_root), m0)).
  { intros m0 Hm0. unfold ConvertGemma.setup_directories.
    fold converter_root.
    apply bind_raise.
    assert (Hos : os_mkdir (cwd w) converter_root m0
                  = (Raise (os_error EEXIST converter_root), m0)).
    { unfold os_mkdir. rewrite Hm0.
      now rewrite (mkdir_eexist_any _ _ _ _ Hroot). }
    change converter_root
      with ("gemma-3-270m-onnx" :: ["models"; "web"; ".."]) at 1.
    cbn [mkdir].
    change ("gemma-3-270m-onnx" :: ["models"; "web"; ".."])
      with converter_root.
    rewrite (try_raise _ _ _ _ _ Hos).
    cbv [is_FileNotFoundError is_OSError os_error class_of]. cbv iota beta.
    unfold mkdir_exists, bind. rewrite is_dir_run, Hm0.
    now rewrite (directory_inode_of _ _ _ _ Hroot). }
  split; [now apply Hsetup|].
  unfold ConvertGemma.main.
  rewrite (bind_ret _ _ _ _ _ (print_run _ _)).
  rewrite (bind_ret _ _ _ _ _ (print_run _ _)).
  rewrite (bind_ret _ _ _ _ _ (check_dependencies_run _ _)).
  rewrite (proj2 (missing_packages_nil w) Hfour).
  rewrite bool_decide_eq_true_2 by done. cbn [negb disk stdout].
  rewrite (bind_ret _ _ _ tt _ eq_refl).
  erewrite bind_raise by (apply Hsetup; reflexivity).
  cbn [packages_verdict]. rewrite <- !app_assoc. reflexivity.
Qed.

Lemma setup_directories_root_is_file_witness :
  exit_status
    (fst (ConvertGemma.main Examples.setup_world
            (Machine Examples.root_file_disk [])))
  = 1.
Proof.
  assert (H1 : forallb (importable Examples.setup_world) converter_probes = true)
    by reflexivity.
  assert (H2 : inode_of Examples.root_file_disk (cwd Examples.setup_world)
                 converter_root = Some (Reg (Text "")))
    by (vm_compute; reflexivity).
  destruct (setup_directories_root_is_file Examples.setup_world
              (Machine Examples.root_file_disk []) (Text "") H1 H2) as [_ H].
  rewrite H. reflexivity.
Defined.

(** No run of the converter removes anything: however it ends, every
    object that was on the disk is still there, and every directory is
    still a directory. *)
Theorem converter_removes_nothing (w : world) (m : machine) :
  preserved (disk m) (disk (snd (ConvertGemma.main w m))).
Proof.
  destruct (ConvertGemma.main w m) as [r m'] eqn:H. cbn [snd].
  revert H. generalize m r m'. change (monotone (ConvertGemma.main w)).
  unfold ConvertGemma.main.
  apply monotone_bind; [apply monotone_print|]. intros _.
  apply monotone_bind; [apply monotone_print|]. intros _.
  apply monotone_bind.
  { apply monotone_observer. intros m0. rewrite check_dependencies_run. eauto. }
  intros ok. apply monotone_bind.
  { destruct ok; [apply monotone_ret | apply monotone_sys_exit]. }
  intros _. apply monotone_bind; [apply setup_directories_monotone|].
  intros d. apply monotone_bind.
  { apply monotone_observer. intros m0. rewrite resolve_token_run. eauto. }
  intros t. apply monotone_bind; [apply convert_model_to_onnx_monotone|].
  intros [|].
  - apply monotone_bind; [apply create_browser_manifest_monotone|].
    intros _. apply monotone_observer, report_success_observer.
  - apply monotone_bind; [apply monotone_print|]. intros _.
    apply monotone_sys_exit.
Qed.

(** Both objects are loaded before anything is saved: when either
    [from_pretrained] raises, the conversion step returns [False] and
    the disk is as it was. *)
Theorem failed_load_writes_nothing (w : world) (d : path)
  (token : option string) (m : machine) :
  (exists e, ort_from_pretrained w ConvertGemma.model_name token = inl e)
  \/ (exists e, tokenizer_from_pretrained w ConvertGemma.model_name token = inl e) ->
  fst (ConvertGemma.convert_model_to_onnx w d token m) = Ret false
  /\ disk (snd (ConvertGemma.convert_model_to_onnx w d token m)) = disk m.
Proof.
  intros Hload.
  assert (Hbody : exists e out,
             ConvertGemma.convert_body w d token m
             = (Raise e, Machine (disk m) out)).
  { unfold ConvertGemma.convert_body, bind, import_module, call.
    destruct (importable w "optimum.onnxruntime"); [|cbv [raise]; destruct m; eauto].
    destruct (importable w "transformers"); [|cbv [raise ret]; destruct m; eauto].
    cbv [ret print raise]. cbn [disk stdout].
    destruct (ort_from_pretrained w ConvertGemma.model_name token) as [e|om];
      [eauto|].
    destruct (tokenizer_from_pretrained w ConvertGemma.model_name token)
      as [e|tk]; [eauto|].
    destruct Hload as [[e He]|[e He]]; discriminate. }
  destruct Hbody as (e & out & Hbody).
  rewrite (convert_of_raise _ _ _ _ _ _ Hbody). now split.
Qed.

Lemma failed_load_writes_nothing_witness :
  fst (ConvertGemma.convert_model_to_onnx Examples.anonymous_world converter_root
         None (Machine Examples.populated_disk []))
  = Ret false.
Proof.
  refine (proj1 (failed_load_writes_nothing Examples.anonymous_world
                   converter_root None (Machine Examples.populated_disk []) _)).
  left. exists Examples.gated. reflexivity.
Defined.

(** ** What a successful run leaves behind *)

Lemma save_loop_present (wd dir : path) (l : list (string * content)) :
  forall m m',
    for_each l (fun '(name, c) _ => write_file wd (dir // name) c) tt m
    = (Ret tt, m') ->
    forall name c, In (name, c) l -> present (disk m') wd (dir // name) = true.
Proof.
  induction l as [|[n0 c0] l IH]; intros m m' H name c Hin; [destruct Hin|].
  cbn [for_each] in H. unfold bind in H.
  destruct (write_file wd (dir // n0) c0 m) as [[[]|e|k] m1] eqn:Hw; try done.
  destruct Hin as [[= <- <-]|Hin]; [|exact (IH _ _ H _ _ Hin)].
  assert (Hpres : preserved (disk m1) (disk m')).
  { revert H. apply monotone_for_each. intros [n1 c1] acc.
    apply monotone_write_file. }
  apply (present_preserved _ _ _ _ Hpres).
  unfold write_file in Hw.
  destruct (FS.write (disk m) wd (dir // n0) c0) as [e|fs'] eqn:Hfs; [done|].
  injection Hw as <-. cbn [disk].
  pose proof (write_inode_of _ _ _ _ _ Hfs) as Hi.
  unfold inode_of in Hi. unfold present.
  now destruct (namei fs' wd (dir // n0)).
Qed.

Lemma save_pretrained_present (wd dir : path) (s : saved) (m m' : machine) :
  save_pretrained wd s dir m = (Ret tt, m') ->
  forall name c, In (name, c) (files s) ->
                 present (disk m') wd (dir // name) = true.
Proof.
  unfold save_pretrained, bind.
  destruct (for_each (files s) _ tt m) as [[[]|e|k] m1] eqn:Hloop; try done.
  destruct (failure s); [done|]. intros [= <-].
  exact (save_loop_present _ _ _ _ _ Hloop).
Qed.

(** When the [try] body returns, every file either exporter wrote is
    present below its subdirectory. *)
Lemma convert_body_exports (w : world) (d : path) (t : option string)
  (m : machine) (b : bool) (m' : machine) :
  ConvertGemma.convert_body w d t m = (Ret b, m') ->
  exists om tk,
    ort_from_pretrained w ConvertGemma.model_name t = inr om
    /\ tokenizer_from_pretrained w ConvertGemma.model_name t = inr tk
    /\ (forall name c, In (name, c) (files (model_export om)) ->
          present (disk m') (cwd w) (d // "onnx" // name) = true)
    /\ (forall name c, In (name, c) (files (tokenizer_export tk)) ->
          present (disk m') (cwd w) (d // "tokenizer" // name) = true).
Proof.
  unfold ConvertGemma.convert_body, bind, import_module, call, json_dump.
  destruct (importable w "optimum.onnxruntime"); [|done].
  destruct (importable w "transformers"); [|done].
  cbv [ret print]. cbn [disk stdout].
  destruct (ort_from_pretrained w ConvertGemma.model_name t) as [e|om]; [done|].
  destruct (tokenizer_from_pretrained w ConvertGemma.model_name t) as [e|tk];
    [done|].
  cbv [raise]. cbn [disk stdout].
  destruct (save_pretrained _ (model_export om) _ _) as [[[]|?|?] m1] eqn:H1;
    try done.
  cbn [disk stdout].
  destruct (save_pretrained _ (tokenizer_export tk) _ _) as [[[]|?|?] m2] eqn:H2;
    try done.
  destruct (write_file _ _ _ m2) as [[[]|?|?] m3] eqn:Hw; try done.
  intros [= <- <-]. exists om, tk. cbn [disk].
  pose proof (monotone_save_pretrained _ _ _ _ _ _ H2) as P2.
  pose proof (monotone_write_file _ _ _ _ _ _ Hw) as P3.
  cbn [disk] in P2.
  repeat split; try done; intros name c Hin.
  - apply (present_preserved _ _ _ _ P3), (present_preserved _ _ _ _ P2).
    exact (save_pretrained_present _ _ _ _ _ H1 _ _ Hin).
  - apply (present_preserved _ _ _ _ P3).
    exact (save_pretrained_present _ _ _ _ _ H2 _ _ Hin).
Qed.

Lemma main_completed (w : world) (m : machine) :
  fst (ConvertGemma.main w m) = Ret tt ->
  exists m1 m2 m3,
    ConvertGemma.setup_directories w m = (Ret converter_root, m1)
    /\ ConvertGemma.convert_model_to_onnx w converter_root
         (environ w !! "HF_TOKEN") m1 = (Ret true, m2)
    /\ ConvertGemma.create_browser_manifest w converter_root m2 = (Ret tt, m3)
    /\ disk (snd (ConvertGemma.main w m)) = disk m3.
Proof.
  destruct (ConvertGemma.main w m) as [r m'] eqn:H. cbn [fst snd]. intros ->.
  apply main_ending in H.
  remember (Ret tt) as r eqn:Hr. remember (disk m') as fs' eqn:Hfs.
  destruct H as [Hd | e0 m1 Hd Hs | m1 m2 Hd Hs Hc
                | m1 m2 e0 m3 Hd Hs Hc Hm | m1 m2 m3 Hd Hs Hc Hm];
    try discriminate.
  exists m1, m2, m3. auto.
Qed.

(** After a run that exits zero the model root and its two
    subdirectories are directories, [config.json] holds the descriptor
    built from the loaded tokenizer, [manifest.json] holds the manifest,
    and nothing that was on the disk before has been removed. *)
Theorem successful_run_layout (w : world) (m : machine) :
  fst (ConvertGemma.main w m) = Ret tt ->
  let fs' := disk (snd (ConvertGemma.main w m)) in
  layout_ready fs' (cwd w)
  /\ (exists tk,
        tokenizer_from_pretrained w ConvertGemma.model_name
          (environ w !! "HF_TOKEN") = inr tk
        /\ inode_of fs' (cwd w) (converter_root // "config.json")
           = Some (Reg (Text (dumps (ConvertGemma.config (vocab_size tk))))))
  /\ inode_of fs' (cwd w) (converter_root // "manifest.json")
     = Some (Reg (Text (dumps ConvertGemma.manifest)))
  /\ preserved (disk m) fs'.
Proof.
  intros Hok fs'. subst fs'.
  destruct (main_completed w m Hok) as (m1 & m2 & m3 & Hs & Hc & Hm & ->).
  destruct (setup_directories_ret _ _ _ _ Hs) as (_ & P1 & (D1 & D2 & D3) & _).
  pose proof (convert_model_to_onnx_monotone _ _ _ _ _ _ Hc) as P2.
  pose proof (create_browser_manifest_monotone _ _ _ _ _ Hm) as P3.
  assert (P13 : preserved (disk m1) (disk m3))
    by (eapply preserved_trans; eassumption).
  split; [|split; [|split]].
  - repeat split; eapply directory_preserved; eauto.
  - apply convert_true_inv in Hc.
    destruct (convert_body_ret _ _ _ _ _ _ Hc) as (_ & om & tk & _ & Htk & Hcfg).
    exists tk. split; [done|].
    apply create_browser_manifest_ret in Hm.
    rewrite join_manifest in Hm. rewrite join_config in *.
    rewrite (write_sibling _ _ _ _ _ _ _ Hm); [done | discriminate].
  - apply create_browser_manifest_ret in Hm.
    exact (write_inode_of _ _ _ _ _ Hm).
  - eapply preserved_trans; [exact P1 | exact P13].
Qed.

Lemma successful_run_layout_witness :
  layout_ready
    (disk (snd (ConvertGemma.main Examples.setup_world
                  (Machine Examples.repo_disk []))))
    (cwd Examples.setup_world).
Proof.
  refine (proj1 (successful_run_layout Examples.setup_world
                   (Machine Examples.repo_disk []) _)).
  vm_compute. reflexivity.
Defined.

(** ** The verifier on the converter's output *)

Lemma namei_inode_at fs wd p d i :
  namei fs wd p = inr (d, i) -> inode_at fs d = Some i.
Proof.
  destruct p as [|c q]; simpl.
  - destruct (inode_at fs wd) eqn:H; [|done]. now intros [= <- <-].
  - destruct (namei fs wd q) as [e|[d0 [c0|]]]; try done.
    destruct (decide (c = "..")).
    + destruct (inode_at fs (tail d0)) eqn:H; [|done]. now intros [= <- <-].
    + destruct (fs !! (c :: d0)) eqn:H; [|done]. now intros [= <- <-].
Qed.

(** Resolving [q] and then [p] from where [q] led is resolving the
    whole path. *)
Lemma namei_app fs wd p q d i :
  namei fs wd q = inr (d, i) -> namei fs wd (p ++ q) = namei fs d p.
Proof.
  intros Hq. induction p as [|c p IH].
  - cbn [app namei]. now rewrite Hq, (namei_inode_at _ _ _ _ _ Hq).
  - change ((c :: p) ++ q) with (c :: (p ++ q)). cbn [namei]. now rewrite IH.
Qed.

Lemma namei_app_inv fs wd p q :
  present fs wd (p ++ q) = true -> exists d i, namei fs wd q = inr (d, i).
Proof.
  unfold present. induction p as [|c p IH].
  - cbn [app]. destruct (namei fs wd q) as [e|[d i]]; [done | eauto].
  - change ((c :: p) ++ q) with (c :: (p ++ q)). cbn [namei].
    destruct (namei fs wd (p ++ q)) as [e|[d i]] eqn:H; [done|].
    intros _. apply IH. reflexivity.
Qed.

(** From the converter's working directory, [../web] can only lead to
    the sibling [web] of that directory. *)
Lemma namei_sibling_web fs wd d i :
  namei fs wd ["web"; ".."] = inr (d, i) -> d = "web" :: tail wd.
Proof.
  cbn [namei]. destruct (inode_at fs wd) as [[c|]|]; try done.
  destruct (decide (".." = "..")); [|done].
  destruct (inode_at fs (tail wd)) as [[c|]|]; try done.
  destruct (decide ("web" = "..")); [done|].
  destruct (fs !! ("web" :: tail wd)); [|done]. now intros [= <- <-].
Qed.

(** What exists for the converter below [../web] exists for a process
    running in that [web] directory under the same relative name. *)
Lemma present_from_web fs wd p :
  present fs wd (p ++ ["web"; ".."]) = true ->
  present fs ("web" :: tail wd) p = true.
Proof.
  intros H. destruct (namei_app_inv _ _ _ _ H) as (d & i & Hq).
  pose proof (namei_sibling_web _ _ _ _ Hq) as ->.
  unfold present in *. now rewrite (namei_app _ _ _ _ _ _ Hq) in H.
Qed.

(** After a converter run that exits zero, in which the model export
    wrote [model.onnx] and the tokenizer export wrote [tokenizer.json],
    the verifier's model-conversion check passes when the verifier runs
    in the directory the converter's [../web] leads to. *)
Theorem verifier_accepts_converter_output (w w' : world) (m : machine)
  (out : list string) :
  fst (ConvertGemma.main w m) = Ret tt ->
  cwd w' = "web" :: tail (cwd w) ->
  (forall om,
     ort_from_pretrained w ConvertGemma.model_name (environ w !! "HF_TOKEN")
     = inr om ->
     exists c, In ("model.onnx", c) (files (model_export om))) ->
  (forall tk,
     tokenizer_from_pretrained w ConvertGemma.model_name
       (environ w !! "HF_TOKEN") = inr tk ->
     exists c, In ("tokenizer.json", c) (files (tokenizer_export tk))) ->
  fst (CheckSetup.check_model_conversion w'
         (Machine (disk (snd (ConvertGemma.main w m))) out))
  = Ret true.
Proof.
  intros Hok Hcwd Hmodel Htok.
  destruct (main_completed w m Hok) as (m1 & m2 & m3 & Hs & Hc & Hm & ->).
  pose proof (create_browser_manifest_monotone _ _ _ _ _ Hm) as P3.
  destruct (setup_directories_ret _ _ _ _ Hs) as (_ & _ & (D1 & _) & _).
  pose proof (convert_model_to_onnx_monotone _ _ _ _ _ _ Hc) as P2.
  apply convert_true_inv in Hc.
  destruct (convert_body_exports _ _ _ _ _ _ Hc)
    as (om & tk & Hom & Htk & Fm & Ft).
  destruct (convert_body_ret _ _ _ _ _ _ Hc) as (_ & _ & tk' & _ & _ & Hcfg).
  destruct (Hmodel om Hom) as (c1 & In1). destruct (Htok tk Htk) as (c2 & In2).
  assert (Hroot : present (disk m3) (cwd w) converter_root = true).
  { apply directory_present. eapply directory_preserved; [exact P3|].
    eapply directory_preserved; [exact P2 | exact D1]. }
  assert (H1 : present (disk m3) (cwd w) (converter_root // "onnx/model.onnx") = true).
  { apply (present_preserved _ _ _ _ P3). exact (Fm _ _ In1). }
  assert (H2 : present (disk m3) (cwd w)
                 (converter_root // "tokenizer/tokenizer.json") = true).
  { apply (present_preserved _ _ _ _ P3). exact (Ft _ _ In2). }
  assert (H3 : present (disk m3) (cwd w) (converter_root // "config.json") = true).
  { apply (present_preserved _ _ _ _ P3). unfold present.
    unfold inode_of in Hcfg.
    now destruct (namei (disk m2) (cwd w) (converter_root // "config.json")). }
  assert (H4 : present (disk m3) (cwd w) (converter_root // "manifest.json") = true).
  { apply create_browser_manifest_ret in Hm.
    pose proof (write_inode_of _ _ _ _ _ Hm) as Hi. unfold present.
    unfold inode_of in Hi.
    now destruct (namei (disk m3) (cwd w) (converter_root // "manifest.json")). }
  rewrite check_model_conversion_found; cbn [disk]; rewrite Hcwd.
  2:{ apply (present_from_web _ _ CheckSetup.model_dir). exact Hroot. }
  cbn [fst]. f_equal. apply bool_decide_eq_true_2.
  unfold absent_from, CheckSetup.required_model_files. cbn [List.filter].
  rewrite (present_from_web _ _ (CheckSetup.model_dir // "onnx/model.onnx") H1).
  rewrite (present_from_web _ _ (CheckSetup.model_dir // "tokenizer/tokenizer.json") H2).
  rewrite (present_from_web _ _ (CheckSetup.model_dir // "config.json") H3).
  rewrite (present_from_web _ _ (CheckSetup.model_dir // "manifest.json") H4).
  reflexivity.
Qed.

Lemma verifier_accepts_converter_output_witness :
  fst (CheckSetup.check_model_conversion Examples.web_world
         (Machine (disk (snd (ConvertGemma.main Examples.setup_world
                                (Machine Examples.repo_disk [])))) []))
  = Ret true.
Proof.
  apply (verifier_accepts_converter_output Examples.setup_world
           Examples.web_world (Machine Examples.repo_disk []) []).
  - vm_compute. reflexivity.
  - reflexivity.
  - intros om [= <-]. eexists. left. reflexivity.
  - intros tk [= <-]. eexists. left. reflexivity.
Defined.

(** ** Sizes *)




(** ** Writing the manifest *)

Lemma inode_of_child fs wd d name dabs :
  namei fs wd d = inr (dabs, Dir) -> name <> ".." ->
  inode_of fs wd (name :: d) = fs !! (name :: dabs).
Proof.
  intros Hd Hn. unfold inode_of. cbn [namei]. rewrite Hd.
  rewrite decide_False by done. now destruct (fs !! (name :: dabs)).
Qed.

(** With the model root in place, writing the manifest succeeds whenever
    [manifest.json] is absent or a regular file, which it replaces with
    the dumped manifest; when [manifest.json] is a directory it raises
    [IsADirectoryError] and changes nothing. *)
Theorem create_browser_manifest_outcome (w : world) (d : path) (m : machine) :
  directory (disk m) (cwd w) d = true ->
  match inode_of (disk m) (cwd w) (d // "manifest.json") with
  | Some Dir =>
      ConvertGemma.create_browser_manifest w d m
      = (Raise (os_error EISDIR (d // "manifest.json")), m)
  | _ =>
      exists fs',
        ConvertGemma.create_browser_manifest w d m
        = (Ret tt,
           Machine fs' (stdout m ++ [ "✅ Created browser manifest file" ]))
        /\ inode_of fs' (cwd w) (d // "manifest.json")
           = Some (Reg (Text (dumps ConvertGemma.manifest)))
        /\ preserved (disk m) fs'
  end.
Proof.
  unfold directory. intros Hd.
  destruct (namei (disk m) (cwd w) d) as [e|[dabs [c|]]] eqn:Hn; try done.
  rewrite join_manifest.
  rewrite (inode_of_child _ _ _ "manifest.json" _ Hn) by discriminate.
  unfold ConvertGemma.create_browser_manifest, json_dump, write_file.
  rewrite join_manifest.
  assert (Hw : FS.write (disk m) (cwd w) ("manifest.json" :: d)
                 (Text (dumps ConvertGemma.manifest))
               = match disk m !! ("manifest.json" :: dabs) with
                 | Some Dir => inl EISDIR
                 | _ => inr (<["manifest.json" :: dabs
                             := Reg (Text (dumps ConvertGemma.manifest))]> (disk m))
                 end).
  { unfold FS.write. rewrite Hn. now rewrite decide_False by discriminate. }
  destruct (disk m !! ("manifest.json" :: dabs)) as [[c|]|] eqn:Hl;
    unfold bind; rewrite Hw;
    try (eexists; split; [reflexivity|]; split;
         [ exact (write_inode_of _ _ _ _ _ Hw)
         | exact (write_preserved _ _ _ _ _ Hw) ]).
  reflexivity.
Qed.

Lemma create_browser_manifest_outcome_witness :
  ConvertGemma.create_browser_manifest Examples.setup_world converter_root
    (Machine Examples.manifest_dir_disk [])
  = (Raise (os_error EISDIR (converter_root // "manifest.json")),
     Machine Examples.manifest_dir_disk []).
Proof.
  assert (Hd : directory (disk (Machine Examples.manifest_dir_disk []))
                 (cwd Examples.setup_world) converter_root = true)
    by (vm_compute; reflexivity).
  pose proof (create_browser_manifest_outcome Examples.setup_world
                converter_root (Machine Examples.manifest_dir_disk []) Hd) as H.
  assert (Hi : inode_of (disk (Machine Examples.manifest_dir_disk []))
                 (cwd Examples.setup_world) (converter_root // "manifest.json")
               = Some Dir)
    by (vm_compute; reflexivity).
  rewrite Hi in H. exact H.
Defined.

(** ** Directory setup on a fresh tree *)

Lemma namei_child fs wd q d c :
  namei fs wd q = inr (d, Dir) -> c <> ".." ->
  namei fs wd (c :: q)
  = match fs !! (c :: d) with
    | Some i => inr (c :: d, i)
    | None => inl ENOENT
    end.
Proof. intros Hq Hc. cbn [namei]. rewrite Hq. now rewrite decide_False. Qed.

Lemma namei_below_missing fs wd q c :
  namei fs wd q = inl ENOENT -> namei fs wd (c :: q) = inl ENOENT.
Proof. intros Hq. cbn [namei]. now rewrite Hq. Qed.

(** [mkdir] of a free name in a directory that resolves. *)
Lemma mkdir_fresh (wd : path) (parents ok : bool) (c : string) (q d : path)
  (m : machine) :
  namei (disk m) wd q = inr (d, Dir) -> c <> ".." ->
  disk m !! (c :: d) = None ->
  mkdir wd parents ok (c :: q) m
  = (Ret tt, Machine (<[c :: d := Dir]> (disk m)) (stdout m)).
Proof.
  intros Hq Hc Hfree. cbn [mkdir]. apply try_ret.
  unfold os_mkdir, FS.mkdir. rewrite Hq, decide_False, Hfree by done.
  reflexivity.
Qed.

Lemma mkdir_single_fresh (wd : path) (ok : bool) (c : string) (q d : path)
  (m : machine) :
  namei (disk m) wd q = inr (d, Dir) -> c <> ".." ->
  disk m !! (c :: d) = None ->
  mkdir_single wd ok (c :: q) m
  = (Ret tt, Machine (<[c :: d := Dir]> (disk m)) (stdout m)).
Proof.
  intros Hq Hc Hfree. unfold mkdir_single. apply try_ret.
  unfold os_mkdir, FS.mkdir. rewrite Hq, decide_False, Hfree by done.
  reflexivity.
Qed.

(** [mkdir(parents=True)] below a missing parent: the parent is made
    first, then the directory itself. *)
Lemma mkdir_missing_parent (wd : path) (ok : bool) (c : string) (q : path)
  (m m1 : machine) :
  namei (disk m) wd q = inl ENOENT ->
  mkdir wd true true q m = (Ret tt, m1) ->
  mkdir wd true ok (c :: q) m = mkdir_single wd ok (c :: q) m1.
Proof.
  intros Hq Hparent. cbn [mkdir].
  assert (Hos : os_mkdir wd (c :: q) m = (Raise (os_error ENOENT (c :: q)), m)).
  { unfold os_mkdir, FS.mkdir. now rewrite Hq. }
  rewrite (try_raise _ _ _ _ _ Hos).
  cbv [is_FileNotFoundError os_error class_of]. cbv iota beta. cbn [negb].
  now rewrite (bind_ret _ _ _ _ _ Hparent).
Qed.

(** On a tree where nothing exists yet at [../web] or below, directory
    setup creates [../web], [../web/models], the model root and its two
    subdirectories, these five directories and nothing else, and returns
    the model root. *)
Theorem setup_directories_fresh (w : world) (m : machine) :
  inode_at (disk m) (cwd w) = Some Dir ->
  inode_at (disk m) (tail (cwd w)) = Some Dir ->
  let web := "web" :: tail (cwd w) in
  let root := "gemma-3-270m-onnx" :: "models" :: web in
  disk m !! web = None ->
  disk m !! ("models" :: web) = None ->
  disk m !! root = None ->
  disk m !! ("onnx" :: root) = None ->
  disk m !! ("tokenizer" :: root) = None ->
  ConvertGemma.setup_directories w m
  = (Ret converter_root,
     Machine
       (<[ "tokenizer" :: root := Dir ]>
          (<[ "onnx" :: root := Dir ]>
             (<[ root := Dir ]>
                (<[ "models" :: web := Dir ]> (<[ web := Dir ]> (disk m))))))
       (stdout m ++ [setup_line])).
Proof.
  intros Hwd Hup web root F1 F2 F3 F4 F5.
  set (fs := disk m) in *.
  set (fs1 := <[ web := Dir ]> fs).
  set (fs2 := <[ "models" :: web := Dir ]> fs1).
  set (fs3 := <[ root := Dir ]> fs2).
  set (fs4 := <[ "onnx" :: root := Dir ]> fs3).
  assert (N0 : namei fs (cwd w) [".."] = inr (tail (cwd w), Dir)).
  { cbn [namei]. rewrite Hwd. rewrite decide_True by done. now rewrite Hup. }
  assert (E1 : namei fs (cwd w) ["web"; ".."] = inl ENOENT).
  { rewrite (namei_child _ _ _ _ _ N0) by discriminate. fold web. now rewrite F1. }
  assert (E2 : namei fs (cwd w) ["models"; "web"; ".."] = inl ENOENT)
    by now apply namei_below_missing.
  assert (P1 : preserved fs fs1) by now apply preserved_insert_dir.
  assert (G2 : fs1 !! ("models" :: web) = None)
    by (unfold fs1; rewrite lookup_insert_ne; [done | discriminate]).
  assert (P2 : preserved fs1 fs2) by now apply preserved_insert_dir.
  assert (G3 : fs2 !! root = None)
    by (unfold fs2, fs1; rewrite !lookup_insert_ne; [done | discriminate..]).
  assert (P3 : preserved fs2 fs3) by now apply preserved_insert_dir.
  assert (G4 : fs3 !! ("onnx" :: root) = None)
    by (unfold fs3, fs2, fs1; rewrite !lookup_insert_ne; [done | discriminate..]).
  assert (P4 : preserved fs3 fs4) by now apply preserved_insert_dir.
  assert (G5 : fs4 !! ("tokenizer" :: root) = None)
    by (unfold fs4, fs3, fs2, fs1; rewrite !lookup_insert_ne;
        [done | discriminate..]).
  assert (N1 : namei fs1 (cwd w) ["web"; ".."] = inr (web, Dir)).
  { rewrite (namei_child _ _ _ (tail (cwd w)) _) by
        (first [exact (namei_dir_preserved _ _ _ _ _ P1 N0) | discriminate]).
    fold web. unfold fs1. now rewrite lookup_insert_eq. }
  assert (N2 : namei fs2 (cwd w) ["models"; "web"; ".."]
               = inr ("models" :: web, Dir)).
  { rewrite (namei_child _ _ _ web _) by
        (first [exact (namei_dir_preserved _ _ _ _ _ P2 N1) | discriminate]).
    unfold fs2. now rewrite lookup_insert_eq. }
  assert (N3 : namei fs3 (cwd w) converter_root = inr (root, Dir)).
  { change converter_root with ("gemma-3-270m-onnx" :: ["models"; "web"; ".."]).
    rewrite (namei_child _ _ _ ("models" :: web) _) by
        (first [exact (namei_dir_preserved _ _ _ _ _ P3 N2) | discriminate]).
    fold root. unfold fs3. now rewrite lookup_insert_eq. }
  (* the three levels down to the model root *)
  assert (M1 : mkdir (cwd w) true true ["web"; ".."] m
               = (Ret tt, Machine fs1 (stdout m))).
  { now apply (mkdir_fresh _ _ _ _ _ _ _ N0). }
  assert (M2 : mkdir (cwd w) true true ["models"; "web"; ".."] m
               = (Ret tt, Machine fs2 (stdout m))).
  { rewrite (mkdir_missing_parent _ _ _ _ _ _ E1 M1).
    now apply (mkdir_single_fresh (cwd w) true "models" _ web
                 (Machine fs1 (stdout m)) N1). }
  assert (M3 : mkdir (cwd w) true true converter_root m
               = (Ret tt, Machine fs3 (stdout m))).
  { change converter_root with ("gemma-3-270m-onnx" :: ["models"; "web"; ".."]).
    rewrite (mkdir_missing_parent _ _ _ _ _ _ E2 M2).
    now apply (mkdir_single_fresh (cwd w) true "gemma-3-270m-onnx" _
                 ("models" :: web) (Machine fs2 (stdout m)) N2). }
  unfold ConvertGemma.setup_directories. fold converter_root.
  rewrite (bind_ret _ _ _ _ _ M3).
  change (converter_root // "onnx") with ("onnx" :: converter_root).
  change (converter_root // "tokenizer") with ("tokenizer" :: converter_root).
  rewrite (bind_ret _ _ _ _ _
             (mkdir_fresh _ false true "onnx" _ _ (Machine fs3 (stdout m)) N3
                ltac:(discriminate) G4)).
  cbn [disk stdout]. fold fs4.
  rewrite (bind_ret _ _ _ _ _
             (mkdir_fresh _ false true "tokenizer" _ _ (Machine fs4 (stdout m))
                (namei_dir_preserved _ _ _ _ _ P4 N3) ltac:(discriminate) G5)).
  reflexivity.
Qed.

Lemma setup_directories_fresh_witness :
  fst (ConvertGemma.setup_directories Examples.setup_world
         (Machine Examples.repo_disk []))
  = Ret converter_root.
Proof.
  rewrite (setup_directories_fresh Examples.setup_world
             (Machine Examples.repo_disk []));
    try (vm_compute; reflexivity).
Defined.
